(** * Change-history parsing of [trac_change_history.py]

    A shallow embedding of the HTML parsing methods of
    [TracChangeHistoryScraper] ([_parse_change_header],
    [_parse_field_changes], [_parse_comment_text], [_parse_changelog])
    together with the part of BeautifulSoup and of Python's [re] and [str]
    that these methods call; then the address kept by [__init__], the
    Markdown rendering [_to_markdown] and the totals and table rows of
    [_print_summary].

    Conventions of the embedding.
    - Text is [string]; a character is a code point below 256 and the
      character classes ([\d], [\s], [\w], [str.strip]) are Python's
      classes restricted to that range.
    - A parsed document is a tree of [Tag]s and strings; the four
      attributes the scraper reads ([class], [id], [title], [href]) are
      record fields.  An absent [class] attribute and an empty one are both
      the empty token list: every query of the scraper treats them alike.
    - Operations that raise in Python ([int], indexing a list, indexing a
      tag's attributes, calling a method on [None]) live in the error
      monad [Py]; [int] is modelled on non-empty strings of ASCII digits,
      with the interpreter's default limit of 4300 digits, beyond which it
      raises [ValueError]. *)

From Stdlib Require Import String Ascii List ZArith Bool Lia Arith DecimalString.
Import ListNotations.

Local Open Scope string_scope.
Local Open Scope bool_scope.

(* ================================================================== *)
(** ** Python values the scraper manipulates *)
(* ================================================================== *)

Module Py.

Inductive Error : Type :=
| ValueError
| KeyError
| IndexError
| TypeError
| AttributeError.

Inductive Result (A : Type) : Type :=
| Ok (a : A)
| Raise (e : Error).

Arguments Ok {A} a.
Arguments Raise {A} e.

Definition ret {A} (a : A) : Result A := Ok a.

Definition bind {A B} (c : Result A) (k : A -> Result B) : Result B :=
  match c with
  | Ok a => k a
  | Raise e => Raise e
  end.

End Py.

Import Py.

Declare Scope py_scope.
Delimit Scope py_scope with py.
Notation "x <- c ;; k" := (Py.bind c (fun x => k))
  (at level 61, c at next level, right associativity) : py_scope.
Local Open Scope py_scope.

(** Truthiness of the values tested by [if] in the source. *)
Definition truthy_str (s : string) : bool :=
  match s with EmptyString => false | String _ _ => true end.

Definition truthy_list {A} (l : list A) : bool :=
  match l with [] => false | _ :: _ => true end.

Definition truthy_opt_str (o : option string) : bool :=
  match o with None => false | Some s => truthy_str s end.

(** [l[i]] with Python's negative indices. *)
Definition getitem {A} (l : list A) (i : Z) : Result A :=
  let n := Z.of_nat (length l) in
  let j := if (i <? 0)%Z then (i + n)%Z else i in
  if (j <? 0)%Z then Raise IndexError
  else match nth_error l (Z.to_nat j) with
       | Some a => Ok a
       | None => Raise IndexError
       end.

(* ================================================================== *)
(** ** Characters and [str] methods *)
(* ================================================================== *)

Definition code (c : ascii) : nat := nat_of_ascii c.

Definition between (lo hi n : nat) : bool := Nat.leb lo n && Nat.leb n hi.

(** [str.isspace] / [\s] *)
Definition is_space (c : ascii) : bool :=
  let n := code c in
  between 9 13 n || between 28 32 n || Nat.eqb n 133 || Nat.eqb n 160.

(** [\d] *)
Definition is_digit (c : ascii) : bool := between 48 57 (code c).

(** [\w] *)
Definition is_word (c : ascii) : bool :=
  let n := code c in
  between 48 57 n || between 65 90 n || between 97 122 n || Nat.eqb n 95
  || Nat.eqb n 170 || Nat.eqb n 178 || Nat.eqb n 179 || Nat.eqb n 181
  || Nat.eqb n 185 || Nat.eqb n 186 || between 188 190 n || between 192 214 n
  || between 216 246 n || between 248 255 n.

Fixpoint lstrip (s : string) : string :=
  match s with
  | EmptyString => EmptyString
  | String c r => if is_space c then lstrip r else s
  end.

Fixpoint rstrip (s : string) : string :=
  match s with
  | EmptyString => EmptyString
  | String c r =>
      match rstrip r with
      | EmptyString => if is_space c then EmptyString else String c EmptyString
      | r' => String c r'
      end
  end.

(** [s.strip()] *)
Definition strip (s : string) : string := rstrip (lstrip s).

(** [s.startswith(p)] *)
Fixpoint startswith (p s : string) : bool :=
  match p, s with
  | EmptyString, _ => true
  | String a p', String b s' => Ascii.eqb a b && startswith p' s'
  | String _ _, EmptyString => false
  end.

(** [needle in s] *)
Fixpoint contains (needle s : string) : bool :=
  startswith needle s
  || match s with
     | EmptyString => false
     | String _ r => contains needle r
     end.

(** [sep.join(l)] *)
Fixpoint join (sep : string) (l : list string) : string :=
  match l with
  | [] => EmptyString
  | [x] => x
  | x :: r => x ++ sep ++ join sep r
  end.

Definition digit_value (c : ascii) : Z := Z.of_nat (code c - 48).

Fixpoint all_digits (s : string) : bool :=
  match s with
  | EmptyString => true
  | String c r => is_digit c && all_digits r
  end.

Fixpoint int_acc (acc : Z) (s : string) : Z :=
  match s with
  | EmptyString => acc
  | String c r => int_acc (10 * acc + digit_value c)%Z r
  end.

(** [sys.get_int_max_str_digits()], as the interpreter starts. *)
Definition max_str_digits : Z := 4300.

(** [int(s)]: a string of more than [max_str_digits] digits is refused. *)
Definition int (s : string) : Result Z :=
  if truthy_str s && all_digits s then
    if (Z.of_nat (String.length s) <=? max_str_digits)%Z
    then Ok (int_acc 0 s)
    else Raise ValueError
  else Raise ValueError.

(* ================================================================== *)
(** ** The fragment of [re] used by the scraper *)
(* ================================================================== *)

Inductive CharSet : Type :=
| Digit                      (* \d *)
| Space                      (* \s *)
| NotSpace                   (* \S *)
| OneOf (cs : string).       (* [...] *)

Fixpoint mem_char (c : ascii) (cs : string) : bool :=
  match cs with
  | EmptyString => false
  | String d r => Ascii.eqb c d || mem_char c r
  end.

Definition in_set (cs : CharSet) (c : ascii) : bool :=
  match cs with
  | Digit => is_digit c
  | Space => is_space c
  | NotSpace => negb (is_space c)
  | OneOf l => mem_char c l
  end.

Inductive Regex : Type :=
| Lit (s : string)                 (* literal text *)
| Chr (cs : CharSet)               (* one character of a class *)
| Repeat (n : nat) (cs : CharSet)  (* cs{n} *)
| Plus (cs : CharSet)              (* cs+, greedy *)
| WordBoundary                     (* \b *)
| Seq (r1 r2 : Regex)
| Alt (r1 r2 : Regex)              (* r1|r2 *)
| Opt (r : Regex)                  (* (?:r)?, greedy *)
| Group (r : Regex).               (* (r), group 1 *)

Infix "+++" := Seq (at level 60, right associativity).

(** One way of matching at a position: the text consumed, group 1 when it
    took part, and the text left. *)
Record Match : Type := mkMatch {
  consumed : string;
  group1 : option string;
  rest : string
}.

Fixpoint drop (n : nat) (s : string) : string :=
  match n, s with
  | S n', String _ r => drop n' r
  | _, _ => s
  end.

Fixpoint take_set (n : nat) (cs : CharSet) (s : string) : option (string * string) :=
  match n with
  | O => Some (EmptyString, s)
  | S n' =>
      match s with
      | String c r =>
          if in_set cs c then
            match take_set n' cs r with
            | Some (p, r') => Some (String c p, r')
            | None => None
            end
          else None
      | EmptyString => None
      end
  end.

(** The non-empty prefixes of [s] inside [cs], longest first. *)
Fixpoint plus_matches (cs : CharSet) (s : string) : list (string * string) :=
  match s with
  | String c r =>
      if in_set cs c then
        (map (fun pr => (String c (fst pr), snd pr)) (plus_matches cs r)
         ++ [(String c EmptyString, r)])%list
      else []
  | EmptyString => []
  end.

Fixpoint last_char (s : string) (prev : option ascii) : option ascii :=
  match s with
  | EmptyString => prev
  | String c r => last_char r (Some c)
  end.

Definition word_at (o : option ascii) : bool :=
  match o with Some c => is_word c | None => false end.

Definition first_char (s : string) : option ascii :=
  match s with String c _ => Some c | EmptyString => None end.

Definition or_else {A} (a b : option A) : option A :=
  match a with Some _ => a | None => b end.

(** All the ways [r] matches at the head of [s], in the order a
    backtracking matcher tries them; [prev] is the character before. *)
Fixpoint rmatch (r : Regex) (prev : option ascii) (s : string) : list Match :=
  match r with
  | Lit l =>
      if startswith l s then [mkMatch l None (drop (String.length l) s)] else []
  | Chr cs =>
      match s with
      | String c s' =>
          if in_set cs c then [mkMatch (String c EmptyString) None s'] else []
      | EmptyString => []
      end
  | Repeat n cs =>
      match take_set n cs s with
      | Some (p, s') => [mkMatch p None s']
      | None => []
      end
  | Plus cs => map (fun pr => mkMatch (fst pr) None (snd pr)) (plus_matches cs s)
  | WordBoundary =>
      if xorb (word_at prev) (word_at (first_char s))
      then [mkMatch EmptyString None s] else []
  | Seq r1 r2 =>
      flat_map
        (fun m1 =>
           map (fun m2 =>
                  mkMatch (consumed m1 ++ consumed m2)
                          (or_else (group1 m2) (group1 m1))
                          (rest m2))
               (rmatch r2 (last_char (consumed m1) prev) (rest m1)))
        (rmatch r1 prev s)
  | Alt r1 r2 => (rmatch r1 prev s ++ rmatch r2 prev s)%list
  | Opt r1 => (rmatch r1 prev s ++ [mkMatch EmptyString None s])%list
  | Group r1 =>
      map (fun m => mkMatch (consumed m) (Some (consumed m)) (rest m))
          (rmatch r1 prev s)
  end.

Fixpoint search_from (r : Regex) (prev : option ascii) (s : string) : option Match :=
  match rmatch r prev s with
  | m :: _ => Some m
  | [] =>
      match s with
      | String c s' => search_from r (Some c) s'
      | EmptyString => None
      end
  end.

(** [re.search(r, s)]: the leftmost match, [None] when there is none. *)
Definition re_search (r : Regex) (s : string) : option Match :=
  search_from r None s.

Definition is_some {A} (o : option A) : bool :=
  match o with Some _ => true | None => false end.

(** The patterns that occur in the source. *)

(* r"#comment:\d+" *)
Definition re_href_comment : Regex := Lit "#comment:" +++ Plus Digit.

(* r"comment:(\d+)" *)
Definition re_comment_num : Regex := Lit "comment:" +++ Group (Plus Digit).

(* r"\d{4}-\d{2}-\d{2}" *)
Definition re_date : Regex :=
  Repeat 4 Digit +++ Lit "-" +++ Repeat 2 Digit +++ Lit "-" +++ Repeat 2 Digit.

(* r"(\d{4}-\d{2}-\d{2}[T ]\d{2}:\d{2}(?::\d{2})?(?:Z|[+-]\d{2}:\d{2})?)" *)
Definition re_timestamp : Regex :=
  Group (Repeat 4 Digit +++ Lit "-" +++ Repeat 2 Digit +++ Lit "-"
         +++ Repeat 2 Digit +++ Chr (OneOf "T ") +++ Repeat 2 Digit
         +++ Lit ":" +++ Repeat 2 Digit
         +++ Opt (Lit ":" +++ Repeat 2 Digit)
         +++ Opt (Alt (Lit "Z")
                      (Chr (OneOf "+-") +++ Repeat 2 Digit +++ Lit ":"
                       +++ Repeat 2 Digit))).

(* r"trac-author" *)
Definition re_trac_author : Regex := Lit "trac-author".

(* r"\bby\s+(\S+)" *)
Definition re_by_author : Regex :=
  WordBoundary +++ Lit "by" +++ Plus Space +++ Group (Plus NotSpace).

(* r"\bcomment\b" *)
Definition re_comment_class : Regex :=
  WordBoundary +++ Lit "comment" +++ WordBoundary.

(* ================================================================== *)
(** ** The parsed document (BeautifulSoup) *)
(* ================================================================== *)

Record Attrs : Type := mkAttrs {
  class_ : list string;       (* tag.get("class", []) *)
  id : option string;         (* tag.get("id") *)
  title : option string;      (* tag.get("title") *)
  href : option string        (* tag.get("href") *)
}.

Definition no_attrs : Attrs := mkAttrs [] None None None.

(** A [Tag] has a name, attributes and contents; its contents are tags,
    text strings ([NavigableString], [CData]) and the strings that
    [get_text] leaves out ([Comment], [Doctype], script and style text). *)
Inductive Tag : Type :=
| mkTag (name : string) (attrs : Attrs) (contents : list PageElement)
with PageElement : Type :=
| Element (t : Tag)
| NavigableString (s : string)
| OtherString (s : string).

Definition name (t : Tag) : string := match t with mkTag n _ _ => n end.
Definition attrs (t : Tag) : Attrs := match t with mkTag _ a _ => a end.
Definition contents (t : Tag) : list PageElement :=
  match t with mkTag _ _ c => c end.

(** The [BeautifulSoup] object is itself a tag named "[document]". *)
Definition BeautifulSoup (top : list PageElement) : Tag :=
  mkTag "[document]" no_attrs top.

(** [tag.descendants]: every node below [tag], in document order. *)
Fixpoint descendants (t : Tag) : list PageElement :=
  match t with
  | mkTag _ _ cs =>
      (fix walk (l : list PageElement) : list PageElement :=
         match l with
         | [] => []
         | e :: r =>
             ((e :: match e with
                   | Element t' => descendants t'
                   | _ => []
                   end) ++ walk r)%list
         end) cs
  end.

Definition tags_of (l : list PageElement) : list Tag :=
  flat_map (fun e => match e with Element t => [t] | _ => [] end) l.

(** [tag.find_all(f)] for a filter [f] on tags. *)
Definition find_all (f : Tag -> bool) (t : Tag) : list Tag :=
  filter f (tags_of (descendants t)).

(** [tag.find_all(f, recursive=False)]: direct children only. *)
Definition find_all_children (f : Tag -> bool) (t : Tag) : list Tag :=
  filter f (tags_of (contents t)).

(** [tag.find(f)]: the first result of [find_all], or [None]. *)
Definition find (f : Tag -> bool) (t : Tag) : option Tag :=
  hd_error (find_all f t).

(** How a filter value is matched against an attribute value. *)
Definition matches_str (v : option string) (s : string) : bool :=
  match v with Some x => String.eqb x s | None => false end.

Definition matches_re (v : option string) (r : Regex) : bool :=
  match v with Some x => is_some (re_search r x) | None => false end.

(** [class] is multi-valued: a filter matches when one token matches, or
    when the whole attribute value does. *)
Definition class_matches_str (cls : list string) (s : string) : bool :=
  existsb (fun c => String.eqb c s) cls || String.eqb (join " " cls) s.

Definition class_matches_re (cls : list string) (r : Regex) : bool :=
  existsb (fun c => is_some (re_search r c)) cls
  || is_some (re_search r (join " " cls)).

Definition name_is (n : string) (t : Tag) : bool := String.eqb (name t) n.

(** [tag._all_strings(strip)] *)
Definition _all_strings (strip_ : bool) (t : Tag) : list string :=
  flat_map
    (fun e =>
       match e with
       | NavigableString s =>
           if strip_ then
             (if truthy_str (strip s) then [strip s] else [])
           else [s]
       | _ => []
       end)
    (descendants t).

(** [tag.get_text(separator, strip=...)] *)
Definition get_text (separator : string) (strip_ : bool) (t : Tag) : string :=
  join separator (_all_strings strip_ t).

(** [tag["title"]] *)
Definition getitem_title (t : Tag) : Result string :=
  match title (attrs t) with
  | Some v => Ok v
  | None => Raise KeyError
  end.

(** [int(m.group(1))]: a group that took no part is [None]. *)
Definition int_group (g : option string) : Result Z :=
  match g with
  | Some d => int d
  | None => Raise TypeError
  end.

(** A [for] loop whose body updates the loop state and may raise. *)
Fixpoint for_each {A S : Type} (body : S -> A -> Result S)
         (l : list A) (st : S) : Result S :=
  match l with
  | [] => Ok st
  | a :: r => st' <- body st a ;; for_each body r st'
  end.

(* ================================================================== *)
(** ** [TracChangeHistoryScraper]: HTML parsing *)
(* ================================================================== *)

(** The dict built by [_parse_change_header]. *)
Record Header : Type := mkHeader {
  hdr_comment_num : option Z;
  hdr_timestamp : option string;
  hdr_author : option string;
  hdr_raw : string
}.

Definition set_hdr_comment_num (h : Header) (v : option Z) : Header :=
  mkHeader v (hdr_timestamp h) (hdr_author h) (hdr_raw h).
Definition set_hdr_timestamp (h : Header) (v : option string) : Header :=
  mkHeader (hdr_comment_num h) v (hdr_author h) (hdr_raw h).
Definition set_hdr_author (h : Header) (v : option string) : Header :=
  mkHeader (hdr_comment_num h) (hdr_timestamp h) v (hdr_raw h).
Definition set_hdr_raw (h : Header) (v : string) : Header :=
  mkHeader (hdr_comment_num h) (hdr_timestamp h) (hdr_author h) v.

(** The filters passed to [find] by the header parser. *)
Definition is_cnum_span (t : Tag) : bool :=
  name_is "span" t && class_matches_str (class_ (attrs t)) "cnum".
Definition is_comment_anchor (t : Tag) : bool :=
  name_is "a" t && matches_re (href (attrs t)) re_href_comment.
Definition is_dated_anchor (t : Tag) : bool :=
  name_is "a" t && matches_re (title (attrs t)) re_date.
Definition is_author_span (t : Tag) : bool :=
  name_is "span" t && class_matches_re (class_ (attrs t)) re_trac_author.

Definition _parse_change_header (h3 : Tag) : Result Header :=
  let result := mkHeader None None None "" in
  let result := set_hdr_raw result (get_text " " true h3) in
  (* Comment number *)
  let cnum_tag := or_else (find is_cnum_span h3) (find is_comment_anchor h3) in
  result <-
    match cnum_tag with
    | Some tg =>
        match re_search re_comment_num (get_text "" false tg) with
        | Some m =>
            n <- int_group (group1 m) ;;
            Ok (set_hdr_comment_num result (Some n))
        | None => Ok result
        end
    | None => Ok result
    end ;;
  (* Timestamp *)
  let time_tag := find is_dated_anchor h3 in
  result <-
    match time_tag with
    | Some tg =>
        v <- getitem_title tg ;;
        Ok (set_hdr_timestamp result (Some (strip v)))
    | None =>
        match re_search re_timestamp (hdr_raw result) with
        | Some m => Ok (set_hdr_timestamp result (group1 m))
        | None => Ok result
        end
    end ;;
  (* Author *)
  let author_tag := find is_author_span h3 in
  match author_tag with
  | Some tg => Ok (set_hdr_author result (Some (get_text "" true tg)))
  | None =>
      match re_search re_by_author (hdr_raw result) with
      | Some m => Ok (set_hdr_author result (group1 m))
      | None => Ok result
      end
  end.

(** One field-change dict. *)
Record FieldChange : Type := mkFieldChange {
  field : option string;
  action : option string;
  old_value : option string;
  new_value : option string
}.

Definition set_field (e : FieldChange) (v : string) : FieldChange :=
  mkFieldChange (Some v) (action e) (old_value e) (new_value e).
Definition set_action (e : FieldChange) (v : string) : FieldChange :=
  mkFieldChange (field e) (Some v) (old_value e) (new_value e).
Definition set_old_value (e : FieldChange) (v : string) : FieldChange :=
  mkFieldChange (field e) (action e) (Some v) (new_value e).
Definition set_new_value (e : FieldChange) (v : string) : FieldChange :=
  mkFieldChange (field e) (action e) (old_value e) (Some v).

(** [ems[i].get_text(strip=True)] *)
Definition em_text (ems : list Tag) (i : Z) : Result string :=
  em <- getitem ems i ;; Ok (get_text "" true em).

(** The body of the loop of [_parse_field_changes], up to the entry. *)
Definition field_entry (li : Tag) : Result FieldChange :=
  let entry := mkFieldChange None None None None in
  let strong := find (name_is "strong") li in
  let entry :=
    match strong with
    | Some st => set_field entry (get_text "" true st)
    | None => entry
    end in
  let ems := find_all (name_is "em") li in
  let li_text := get_text " " true li in
  if contains "changed from" li_text && (2 <=? List.length ems)%nat then
    let entry := set_action entry "changed" in
    o <- em_text ems 0 ;;
    let entry := set_old_value entry o in
    n <- em_text ems 1 ;;
    Ok (set_new_value entry n)
  else if contains "set to" li_text && truthy_list ems then
    let entry := set_action entry "set" in
    n <- em_text ems 0 ;;
    Ok (set_new_value entry n)
  else if contains "deleted" li_text then
    let entry := set_action entry "deleted" in
    if truthy_list ems then
      o <- em_text ems 0 ;;
      Ok (set_old_value entry o)
    else Ok entry
  else if truthy_list ems then
    let entry := set_action entry "modified" in
    n <- em_text ems (-1) ;;
    let entry := set_new_value entry n in
    if (1 <? List.length ems)%nat then
      o <- em_text ems 0 ;;
      Ok (set_old_value entry o)
    else Ok entry
  else Ok entry.

Definition field_changes_step (changes : list FieldChange) (li : Tag)
  : Result (list FieldChange) :=
  entry <- field_entry li ;;
  if truthy_opt_str (field entry) then Ok (changes ++ [entry])%list
  else Ok changes.

Definition _parse_field_changes (ul : Tag) : Result (list FieldChange) :=
  for_each field_changes_step (find_all_children (name_is "li") ul) [].

Definition _parse_comment_text (comment_div : option Tag) : string :=
  match comment_div with
  | None => ""
  | Some d => get_text (String (ascii_of_nat 10) "") true d
  end.

(** One event dict. *)
Record Event : Type := mkEvent {
  comment_num : option Z;
  timestamp : option string;
  author : option string;
  field_changes : list FieldChange;
  comment : string
}.

Definition update_header (ev : Event) (h : Header) : Event :=
  mkEvent (hdr_comment_num h) (hdr_timestamp h) (hdr_author h)
          (field_changes ev) (comment ev).
Definition set_field_changes (ev : Event) (v : list FieldChange) : Event :=
  mkEvent (comment_num ev) (timestamp ev) (author ev) v (comment ev).
Definition set_comment (ev : Event) (v : string) : Event :=
  mkEvent (comment_num ev) (timestamp ev) (author ev) (field_changes ev) v.

(** The filters of [_parse_changelog]. *)
Definition has_id (i : string) (t : Tag) : bool := matches_str (id (attrs t)) i.

Definition is_change_block (tag : Tag) : bool :=
  (String.eqb (name tag) "div" || String.eqb (name tag) "li")
  && existsb (String.eqb "change") (class_ (attrs tag))
  && startswith "trac-change"
       (match id (attrs tag) with Some i => i | None => "" end).

Definition is_change_heading (t : Tag) : bool :=
  name_is "h3" t && class_matches_str (class_ (attrs t)) "change".
Definition is_changes_list (t : Tag) : bool :=
  name_is "ul" t && class_matches_str (class_ (attrs t)) "changes".
Definition is_comment_div (t : Tag) : bool :=
  name_is "div" t && class_matches_re (class_ (attrs t)) re_comment_class.

(** The body of the loop of [_parse_changelog], up to the event. *)
Definition block_event (block : Tag) : Result Event :=
  let event := mkEvent None None None [] "" in
  (* Header *)
  event <-
    match find is_change_heading block with
    | Some h3 =>
        header <- _parse_change_header h3 ;;
        Ok (update_header event header)
    | None => Ok event
    end ;;
  (* Field changes *)
  event <-
    match find is_changes_list block with
    | Some ul =>
        fc <- _parse_field_changes ul ;;
        Ok (set_field_changes event fc)
    | None => Ok event
    end ;;
  (* Comment text *)
  match find is_comment_div block with
  | Some comment_div =>
      Ok (set_comment event (_parse_comment_text (Some comment_div)))
  | None => Ok event
  end.

(** [if event["field_changes"] or event["comment"]] *)
Definition retained (event : Event) : bool :=
  truthy_list (field_changes event) || truthy_str (comment event).

Definition changelog_step (events : list Event) (block : Tag)
  : Result (list Event) :=
  event <- block_event block ;;
  if retained event then Ok (events ++ [event])%list else Ok events.

(** The root the blocks are searched in. *)
Definition changelog_root (soup : Tag) : Tag :=
  match find (has_id "changelog") soup with
  | Some changelog => changelog
  | None => soup
  end.

Definition change_blocks (soup : Tag) : list Tag :=
  find_all is_change_block (changelog_root soup).

Definition _parse_changelog (soup : Tag) : Result (list Event) :=
  for_each changelog_step (change_blocks soup) [].

(* ================================================================== *)
(** ** Notions used to state the properties *)
(* ================================================================== *)

(** The value tokens of a list item, its rendered text and its marker. *)
Definition ems_of (li : Tag) : list Tag := find_all (name_is "em") li.

Definition li_text (li : Tag) : string := get_text " " true li.

Definition token (li : Tag) (i : nat) : option string :=
  option_map (get_text "" true) (nth_error (ems_of li) i).

Definition last_token (li : Tag) : option string :=
  token li (List.length (ems_of li) - 1).

Definition marker (li : Tag) : option string :=
  option_map (get_text "" true) (find (name_is "strong") li).

Definition says (phrase : string) (li : Tag) : bool :=
  contains phrase (li_text li).

(** The three guarded branches of the classification. *)
Definition changed_case (li : Tag) : bool :=
  says "changed from" li && (2 <=? List.length (ems_of li))%nat.
Definition set_case (li : Tag) : bool :=
  says "set to" li && (1 <=? List.length (ems_of li))%nat.
Definition deleted_case (li : Tag) : bool := says "deleted" li.

(** Closed form of the entry computed by [field_entry]. *)
Definition entry_of (li : Tag) : FieldChange :=
  if changed_case li then
    mkFieldChange (marker li) (Some "changed") (token li 0) (token li 1)
  else if set_case li then
    mkFieldChange (marker li) (Some "set") None (token li 0)
  else if deleted_case li then
    mkFieldChange (marker li) (Some "deleted") (token li 0) None
  else if (1 <=? List.length (ems_of li))%nat then
    mkFieldChange (marker li) (Some "modified")
                  (if (2 <=? List.length (ems_of li))%nat
                   then token li 0 else None)
                  (last_token li)
  else mkFieldChange (marker li) None None None.

(** Closed form of the header fields. *)
Definition cnum_tag_of (h3 : Tag) : option Tag :=
  or_else (find is_cnum_span h3) (find is_comment_anchor h3).

Definition raw_of (h3 : Tag) : string := get_text " " true h3.

Definition comment_num_of (h3 : Tag) : option Z :=
  match cnum_tag_of h3 with
  | Some tg =>
      match re_search re_comment_num (get_text "" false tg) with
      | Some m => option_map (int_acc 0) (group1 m)
      | None => None
      end
  | None => None
  end.

Definition timestamp_of (h3 : Tag) : option string :=
  match find is_dated_anchor h3 with
  | Some tg => option_map strip (title (attrs tg))
  | None =>
      match re_search re_timestamp (raw_of h3) with
      | Some m => group1 m
      | None => None
      end
  end.

Definition author_of (h3 : Tag) : option string :=
  match find is_author_span h3 with
  | Some tg => Some (get_text "" true tg)
  | None =>
      match re_search re_by_author (raw_of h3) with
      | Some m => group1 m
      | None => None
      end
  end.

Definition header_of (h3 : Tag) : Header :=
  mkHeader (comment_num_of h3) (timestamp_of h3) (author_of h3) (raw_of h3).

(** The digits of the comment number, as the header interpreter finds
    them: after "comment:" in the text of the first span of class cnum,
    or else of the first anchor to a comment. *)
Definition number_digits (h3 : Tag) : option string :=
  match cnum_tag_of h3 with
  | Some tg =>
      match re_search re_comment_num (get_text "" false tg) with
      | Some m => group1 m
      | None => None
      end
  | None => None
  end.

(** The comment number has more digits than [int] accepts. *)
Definition oversized (h3 : Tag) : bool :=
  match number_digits h3 with
  | Some d => negb (Z.of_nat (String.length d) <=? max_str_digits)%Z
  | None => false
  end.

Definition block_oversized (block : Tag) : bool :=
  match find is_change_heading block with
  | Some h3 => oversized h3
  | None => false
  end.

Fixpoint has_digit (s : string) : bool :=
  match s with
  | EmptyString => false
  | String c r => is_digit c || has_digit r
  end.

(** No span and no anchor below the tag. *)
Definition no_span_or_anchor (h3 : Tag) : bool :=
  forallb (fun t => negb (name_is "span" t || name_is "a" t))
          (tags_of (descendants h3)).

(** A heading with nothing to extract: no span, no anchor, and a rendered
    text without a digit and without "by". *)
Definition malformed_heading (h3 : Tag) : bool :=
  no_span_or_anchor h3
  && negb (has_digit (raw_of h3))
  && negb (contains "by" (raw_of h3)).

(** Whether a block, or a list item, ends up in the output. *)
Definition block_retained (block : Tag) : bool :=
  match block_event block with
  | Ok event => retained event
  | Raise _ => false
  end.

Definition item_kept (li : Tag) : bool :=
  match field_entry li with
  | Ok entry => truthy_opt_str (field entry)
  | Raise _ => false
  end.

Definition list_items (ul : Tag) : list Tag :=
  find_all_children (name_is "li") ul.

(** No leading or trailing whitespace. *)
Definition trimmed (s : string) : Prop := strip s = s.

Definition newline : string := String (ascii_of_nat 10) "".

(** The text fragments of a region, each trimmed, blank ones left out. *)
Definition fragments (region : Tag) : list string := _all_strings true region.

(** The text nodes below a tag, in document order. *)
Definition text_nodes (t : Tag) : list string := _all_strings false t.

(** The word "comment" stands in [s] between two characters that are not
    word characters, or the ends of [s]. *)
Definition word_comment_in (s : string) : Prop :=
  exists before after,
    s = before ++ "comment" ++ after
    /\ word_at (last_char before None) = false
    /\ word_at (first_char after) = false.

(** A class attribute with the word "comment" in one of its tokens, or
    in the whole value. *)
Definition comment_styled (cls : list string) : Prop :=
  (exists tok, In tok cls /\ word_comment_in tok)
  \/ word_comment_in (join " " cls).

(** Closed forms of the list, block and document interpreters. *)
Definition kept_entry (e : FieldChange) : bool := truthy_opt_str (field e).

Definition entries_of (ul : Tag) : list FieldChange :=
  filter kept_entry (map entry_of (list_items ul)).

Definition heading_of (block : Tag) : option Header :=
  option_map header_of (find is_change_heading block).

Definition event_of (block : Tag) : Event :=
  mkEvent
    (match heading_of block with Some h => hdr_comment_num h | None => None end)
    (match heading_of block with Some h => hdr_timestamp h | None => None end)
    (match heading_of block with Some h => hdr_author h | None => None end)
    (match find is_changes_list block with
     | Some ul => entries_of ul
     | None => []
     end)
    (match find is_comment_div block with
     | Some region => join newline (fragments region)
     | None => ""
     end).

Definition events_of (soup : Tag) : list Event :=
  filter retained (map event_of (change_blocks soup)).

(** A string that is not empty and has no white space at either end. *)
Definition solid (s : string) : Prop :=
  match s with
  | EmptyString => False
  | String c _ =>
      is_space c = false
      /\ exists d, last_char s None = Some d /\ is_space d = false
  end.

(** *** The three-tier locator, following the specification's words *)

Definition is_heading (t : Tag) : bool :=
  existsb (String.eqb (name t)) ["h1"; "h2"; "h3"; "h4"; "h5"; "h6"].

Definition is_indicator_heading (t : Tag) : bool :=
  is_heading t
  && (contains "Changed" (get_text "" false t)
      || contains "comment" (get_text "" false t)).

(** Tier three: the parents of the headings that use the change
    vocabulary. *)
Definition heading_parents (root : Tag) : list Tag :=
  filter (fun t => existsb is_indicator_heading (tags_of (contents t)))
         (root :: tags_of (descendants root)).

(** Tier one, else the legacy tier [tier2], else tier three. *)
Definition spec_three_tier_locate (tier2 : Tag -> list Tag) (root : Tag)
  : list Tag :=
  match find_all is_change_block root with
  | (_ :: _) as found => found
  | [] =>
      match tier2 root with
      | (_ :: _) as found => found
      | [] => heading_parents root
      end
  end.

(** *** Sample markup *)

Definition text (s : string) : PageElement := NavigableString s.

Definition elem (n : string) (cls : list string) (cs : list PageElement)
  : PageElement :=
  Element (mkTag n (mkAttrs cls None None None) cs).

Definition anchor_to (target : string) (cs : list PageElement) : PageElement :=
  Element (mkTag "a" (mkAttrs [] None None (Some target)) cs).

(** <span class="cnum"><a href="#comment:3">comment:3</a></span> *)
Definition cnum_span_3 : PageElement :=
  elem "span" ["cnum"] [anchor_to "#comment:3" [text "comment:3"]].

(** <a href="#comment:3">comment:3</a> *)
Definition comment_anchor_3 : PageElement :=
  anchor_to "#comment:3" [text "comment:3"].

(** A heading that renders as
    "comment:3 Changed 2024-01-15T10:00:00Z by alice"; [carrier] holds the
    comment:3 token. *)
Definition scenario_heading (carrier : PageElement) : Tag :=
  mkTag "h3" (mkAttrs ["change"] None None None)
        [carrier; text " Changed 2024-01-15T10:00:00Z by alice"].

(** The same heading as one text node. *)
Definition plain_heading : Tag :=
  mkTag "h3" (mkAttrs ["change"] None None None)
        [text "comment:3 Changed 2024-01-15T10:00:00Z by alice"].

(** <li><strong>Component</strong> changed from <em>libavcodec</em> to
    <em>libavformat</em></li> *)
Definition component_item : PageElement :=
  elem "li" ["trac-field-component"]
       [elem "strong" [] [text "Component"]; text " changed from ";
        elem "em" [] [text "libavcodec"]; text " to ";
        elem "em" [] [text "libavformat"]].

Definition scenario_block (heading : Tag) : Tag :=
  mkTag "div" (mkAttrs ["change"] (Some "trac-change-3") None None)
        [Element heading; elem "ul" ["changes"] [component_item]].

Definition scenario_event (num : option Z) : Event :=
  mkEvent num (Some "2024-01-15T10:00:00Z") (Some "alice")
          [mkFieldChange (Some "Component") (Some "changed")
                         (Some "libavcodec") (Some "libavformat")]
          "".

Definition changelog_div (cs : list PageElement) : PageElement :=
  Element (mkTag "div" (mkAttrs [] (Some "changelog") None None) cs).

(** The scenario with the heading as plain text, inside #changelog. *)
Definition plain_scenario_page : Tag :=
  BeautifulSoup [changelog_div [Element (scenario_block plain_heading)]].


(** A legacy page: inside #changelog, a container without the change id
    holds a "Changed ..." heading and a field list. *)
Definition legacy_block : Tag :=
  mkTag "div" (mkAttrs ["change"] None None None)
        [elem "h3" [] [text "Changed 2 years ago by bob"];
         elem "ul" ["changes"] [component_item]].

Definition legacy_page : Tag :=
  BeautifulSoup [changelog_div [Element legacy_block]].

(** A list holding one item whose marker is empty, no value token and no
    verb: <li><strong></strong> reviewed</li> *)
Definition empty_marker_item : Tag :=
  mkTag "li" no_attrs [elem "strong" [] []; text " reviewed"].

Definition empty_marker_list : Tag :=
  mkTag "ul" (mkAttrs ["changes"] None None None) [Element empty_marker_item].

(** <li><strong>Keywords</strong> reviewed</li> *)
Definition bare_item : Tag :=
  mkTag "li" no_attrs [elem "strong" [] [text "Keywords"]; text " reviewed"].

Definition bare_list : Tag :=
  mkTag "ul" (mkAttrs ["changes"] None None None) [Element bare_item].

(** <li><strong>Status</strong> moved to <em>closed</em></li> *)
Definition moved_item : Tag :=
  mkTag "li" no_attrs
        [elem "strong" [] [text "Status"]; text " moved to ";
         elem "em" [] [text "closed"]].

(** <li>no marker here, <em>x</em> deleted</li> *)
Definition markerless_item : Tag :=
  mkTag "li" no_attrs [text "no marker here, "; elem "em" [] [text "x"];
                       text " deleted"].

(** <div class="comment searchable"><p> Looks good </p><p>to me.</p></div> *)
Definition comment_region : Tag :=
  mkTag "div" (mkAttrs ["comment"; "searchable"] None None None)
        [elem "p" [] [text " Looks good "]; text "
"; elem "p" [] [text "to me."]].

Definition comment_only_block : Tag :=
  mkTag "div" (mkAttrs ["change"] (Some "trac-change-4") None None)
        [Element comment_region].

(** A heading with nothing in it. *)
Definition empty_heading : Tag := mkTag "h3" no_attrs [].

(** [n] times the digit 9. *)
Fixpoint nines (n : nat) : string :=
  match n with
  | O => EmptyString
  | S n' => String "9" (nines n')
  end.

(** <h3 class="change"><span class="cnum">comment:99...9</span></h3>
    with [n] digits. *)
Definition numbered_heading (n : nat) : Tag :=
  mkTag "h3" (mkAttrs ["change"] None None None)
        [elem "span" ["cnum"] [text ("comment:" ++ nines n)]].

(** A change block with that heading, no field list and no comment. *)
Definition numbered_block (n : nat) : Tag :=
  mkTag "div" (mkAttrs ["change"] (Some "trac-change-1") None None)
        [Element (numbered_heading n)].

Definition numbered_page (n : nat) : Tag :=
  BeautifulSoup [changelog_div [Element (numbered_block n)]].

(** <div class="change" id="trac-change-5">
      <div class="comment-form">Add a reply</div></div> *)
Definition reply_form_block : Tag :=
  mkTag "div" (mkAttrs ["change"] (Some "trac-change-5") None None)
        [elem "div" ["comment-form"] [text "Add a reply"]].

(** <div class="change" id="trac-change-6">
      <div class="comment"><p>Hello <b>big</b> world</p></div></div> *)
Definition inline_markup_block : Tag :=
  mkTag "div" (mkAttrs ["change"] (Some "trac-change-6") None None)
        [elem "div" ["comment"]
              [elem "p" [] [text "Hello "; elem "b" [] [text "big"];
                            text " world"]]].

(* ================================================================== *)
(** ** [TracChangeHistoryScraper]: construction and output *)
(* ================================================================== *)

(** [s.rstrip(chars)] *)
Fixpoint rstrip_chars (chars s : string) : string :=
  match s with
  | EmptyString => EmptyString
  | String c r =>
      match rstrip_chars chars r with
      | EmptyString =>
          if mem_char c chars then EmptyString else String c EmptyString
      | r' => String c r'
      end
  end.

(** [self.base_url] as [__init__] stores it. *)
Definition init_base_url (base_url : string) : string :=
  rstrip_chars "/" base_url.

(** The address [scrape] loads: f"{self.base_url}/ticket/{ticket_id}". *)
Definition ticket_url (base_url ticket_id : string) : string :=
  base_url ++ "/ticket/" ++ ticket_id.

(** [str(n)] for an [int] and for a length. *)
Definition str_int (z : Z) : string := NilZero.string_of_int (Z.to_int z).

Definition str_len (n : nat) : string := NilZero.string_of_uint (Nat.to_uint n).

(** An optional string, or an optional number, inside an f-string. *)
Definition fmt (o : option string) : string :=
  match o with Some v => v | None => "None" end.

Definition fmt_int (o : option Z) : string :=
  match o with Some z => str_int z | None => "None" end.

(** Truthiness of an optional number: [None] and [0] are false. *)
Definition truthy_opt_int (o : option Z) : bool :=
  match o with Some z => negb (Z.eqb z 0) | None => false end.

(** [x or d] for an optional string [x]. *)
Definition or_str (x : option string) (d : string) : string :=
  match x with
  | Some v => if truthy_str v then v else d
  | None => d
  end.

(** [s.split(sep)] for a separator of one character. *)
Fixpoint split (sep : ascii) (s : string) : list string :=
  match s with
  | EmptyString => [EmptyString]
  | String c r =>
      if Ascii.eqb c sep then EmptyString :: split sep r
      else match split sep r with
           | x :: l => String c x :: l
           | [] => [String c EmptyString]
           end
  end.

(** [s[:n]] *)
Fixpoint take (n : nat) (s : string) : string :=
  match n, s with
  | S n', String c r => String c (take n' r)
  | _, _ => EmptyString
  end.

Fixpoint spaces (n : nat) : string :=
  match n with
  | O => EmptyString
  | S n' => String " " (spaces n')
  end.

(** f"{s:<n}" *)
Definition ljust (n : nat) (s : string) : string :=
  s ++ spaces (n - String.length s).

Definition line_feed : ascii := ascii_of_nat 10.

(** [lines.append(x)] *)
Definition push {A : Type} (lines : list A) (x : A) : list A :=
  (lines ++ [x])%list.

Section Markdown.

(** The two characters of the templates that lie beyond code point 255,
    U+2014 and U+2192, and the two values read from outside: the stored
    base address and the formatted clock. *)
Variables em_dash arrow : string.
Variable base_url : string.
Variable now : string.

(** The line appended for one field change. *)
Definition field_change_line (fc : FieldChange) : string :=
  let field_ := fmt (field fc) in
  let old := old_value fc in
  let new := new_value fc in
  if matches_str (action fc) "changed" then
    "- **" ++ field_ ++ "**: `" ++ fmt old ++ "` " ++ arrow ++ " `"
    ++ fmt new ++ "`"
  else if matches_str (action fc) "set" then
    "- **" ++ field_ ++ "**: set to `" ++ fmt new ++ "`"
  else if matches_str (action fc) "deleted" then
    "- **" ++ field_ ++ "**: deleted (was `" ++ fmt old ++ "`)"
  else
    let parts := [] in
    let parts :=
      if truthy_opt_str old then push parts ("was `" ++ fmt old ++ "`")
      else parts in
    let parts :=
      if truthy_opt_str new then push parts ("now `" ++ fmt new ++ "`")
      else parts in
    let joined := join ", " parts in
    "- **" ++ field_ ++ "**: "
    ++ (if truthy_str joined then joined else fmt (action fc)).

(** The line appended for one paragraph of a comment. *)
Definition comment_line (para : string) : string :=
  if truthy_str para then "> " ++ para else ">".

Definition comment_lines (c : string) : list string :=
  map comment_line (split line_feed c).

(** The heading line of an event. *)
Definition heading_line (ev : Event) : string :=
  let cnum :=
    if truthy_opt_int (comment_num ev)
    then "comment:" ++ fmt_int (comment_num ev) else "change" in
  let ts := or_str (timestamp ev) "unknown time" in
  let author_ := or_str (author ev) "unknown" in
  "## [" ++ cnum ++ "] " ++ em_dash ++ " " ++ ts ++ " by **" ++ author_ ++ "**".

(** One turn of the loop over the events. *)
Definition markdown_step (lines : list string) (ev : Event) : list string :=
  let lines := push lines (heading_line ev) in
  let lines := push lines ("") in
  let lines :=
    if truthy_list (field_changes ev) then
      let lines := push lines ("**Field changes:**") in
      let lines := push lines ("") in
      let lines :=
        fold_left (fun ls fc => push ls (field_change_line fc))
                  (field_changes ev) lines in
      push lines ("")
    else lines in
  let lines :=
    if truthy_str (comment ev) then
      let lines := push lines ("**Comment:**") in
      let lines := push lines ("") in
      let lines :=
        fold_left (fun ls para => push ls (comment_line para))
                  (split line_feed (comment ev)) lines in
      push lines ("")
    else lines in
  let lines := push lines ("---") in
  push lines ("").

Definition markdown_head (ticket_id : string) (events : list Event)
  : list string :=
  ["# Change History " ++ em_dash ++ " Ticket #" ++ ticket_id;
   "";
   "**Source:** " ++ base_url ++ "/ticket/" ++ ticket_id ++ "  ";
   "**Exported:** " ++ now ++ "  ";
   "**Total change events:** " ++ str_len (List.length events);
   "";
   "---";
   ""].

Definition markdown_lines (ticket_id : string) (events : list Event)
  : list string :=
  fold_left markdown_step events (markdown_head ticket_id events).

Definition _to_markdown (ticket_id : string) (events : list Event) : string :=
  join newline (markdown_lines ticket_id events).

End Markdown.

(** The totals computed by [_print_summary]. *)
Definition total_field_changes (events : list Event) : nat :=
  list_sum (map (fun e => List.length (field_changes e)) events).

Definition total_comments (events : list Event) : nat :=
  List.length (filter (fun e => truthy_str (comment e)) events).

(** [", ".join(fc["field"] for fc in ...)]: joining a [None] raises. *)
Fixpoint field_names (fcs : list FieldChange) : Result (list string) :=
  match fcs with
  | [] => Ok []
  | fc :: r =>
      match field fc with
      | Some nm => names <- field_names r ;; Ok (nm :: names)
      | None => Raise TypeError
      end
  end.

(** The cells of one row of the table of [_print_summary]; [tick] and
    [cross] are [sym.tick] and [sym.cross]. *)
Record Row : Type := mkRow {
  cnum_cell : string;
  author_cell : string;
  fields_cell : string;
  comment_cell : string
}.

Definition summary_row (tick cross : string) (ev : Event) : Result Row :=
  let cnum :=
    if truthy_opt_int (comment_num ev) then fmt_int (comment_num ev)
    else "-" in
  let author_ := take 18 (or_str (author ev) "?") in
  names <- field_names (field_changes ev) ;;
  let fields := take 30 (join ", " names) in
  let has_comment := if truthy_str (comment ev) then tick else cross in
  Ok (mkRow (ljust 6 cnum) (ljust 18 author_) (ljust 30 fields) has_comment).

(** The line printed for a row:
    f"  {cnum:<6} {author:<18} {fields:<30} {has_comment}". *)
Definition row_text (r : Row) : string :=
  "  " ++ cnum_cell r ++ " " ++ author_cell r ++ " " ++ fields_cell r
  ++ " " ++ comment_cell r.

(** *** Notions used to state the properties of the output *)

(** [s] occurs in [t]. *)
Definition occurs_in (s t : string) : Prop :=
  exists before after, t = before ++ s ++ after.

Fixpoint no_space (s : string) : bool :=
  match s with
  | EmptyString => true
  | String c r => negb (is_space c) && no_space r
  end.

Fixpoint blank (s : string) : bool :=
  match s with
  | EmptyString => true
  | String c r => is_space c && blank r
  end.

Fixpoint slashes (n : nat) : string :=
  match n with
  | O => EmptyString
  | S n' => String "/" (slashes n')
  end.

(** The shortest and the longest text a pattern can consume; [None] is
    no bound. *)
Fixpoint min_len (r : Regex) : nat :=
  match r with
  | Lit l => String.length l
  | Chr _ => 1
  | Repeat n _ => n
  | Plus _ => 1
  | WordBoundary => 0
  | Seq r1 r2 => min_len r1 + min_len r2
  | Alt r1 r2 => Nat.min (min_len r1) (min_len r2)
  | Opt _ => 0
  | Group r1 => min_len r1
  end.

Fixpoint max_len (r : Regex) : option nat :=
  match r with
  | Lit l => Some (String.length l)
  | Chr _ => Some 1
  | Repeat n _ => Some n
  | Plus _ => None
  | WordBoundary => Some 0
  | Seq r1 r2 =>
      match max_len r1, max_len r2 with
      | Some a, Some b => Some (a + b)
      | _, _ => None
      end
  | Alt r1 r2 =>
      match max_len r1, max_len r2 with
      | Some a, Some b => Some (Nat.max a b)
      | _, _ => None
      end
  | Opt r1 => max_len r1
  | Group r1 => max_len r1
  end.

(** Sample markup for the properties below. *)

(** <h3 class="change"><span class="cnum"></span>
    <a href="#comment:3">comment:3</a></h3> *)
Definition shadowed_heading : Tag :=
  mkTag "h3" (mkAttrs ["change"] None None None)
        [elem "span" ["cnum"] []; comment_anchor_3].

(** <h3>Changed <a title=" 2024-01-15T10:00:00+01:00 in Timeline ">2 years
    ago</a> by alice</h3> *)
Definition titled_heading : Tag :=
  mkTag "h3" (mkAttrs ["change"] None None None)
        [text "Changed ";
         Element (mkTag "a" (mkAttrs [] None
                                     (Some " 2024-01-15T10:00:00+01:00 in Timeline ")
                                     None)
                        [text "2 years ago"]);
         text " by alice"].

(** A page whose container is followed by a change block outside it. *)
Definition page_with_stray_block : Tag :=
  BeautifulSoup
    [changelog_div [Element comment_only_block];
     Element (scenario_block (scenario_heading cnum_span_3))].

(** <li><strong>Milestone</strong> deleted</li> *)
Definition deleted_item : Tag :=
  mkTag "li" no_attrs [elem "strong" [] [text "Milestone"]; text " deleted"].

Definition deleted_list : Tag :=
  mkTag "ul" (mkAttrs ["changes"] None None None)
        [Element deleted_item; Element bare_item].

(* ================================================================== *)
(** ** Loops, lookups and indexing *)
(* ================================================================== *)

Section Loops.

Context {A B : Type}.
Variable f : A -> Result B.
Variable keep : B -> bool.

Lemma for_each_app (S : Type) (body : S -> A -> Result S) (l1 l2 : list A) (st : S) :
  for_each body (l1 ++ l2)%list st
  = (st' <- for_each body l1 st ;; for_each body l2 st').
Proof.
  revert st. induction l1 as [|a l1 IH]; intros st; simpl; [reflexivity|].
  destruct (body st a) as [st'|e]; simpl; [apply IH | reflexivity].
Qed.

(** A collecting loop whose body never raises is a map followed by a
    filter. *)
Lemma for_each_collect (g : A -> B) (l : list A) (acc : list B) :
  (forall a, In a l -> f a = Ok (g a)) ->
  for_each (fun acc a =>
              e <- f a ;; if keep e then Ok (acc ++ [e])%list else Ok acc)
           l acc
  = Ok (acc ++ filter keep (map g l))%list.
Proof.
  revert acc. induction l as [|a l IH]; intros acc H; simpl.
  - now rewrite app_nil_r.
  - rewrite (H a (or_introl eq_refl)). simpl.
    destruct (keep (g a)); simpl.
    + rewrite IH by (intros; apply H; now right).
      now rewrite <- app_assoc.
    + apply IH. intros; apply H; now right.
Qed.

(** The same loop when the body raises [e] on the elements marked by
    [bad]: the first of them ends it. *)
Lemma for_each_guarded (bad : A -> bool) (e : Error) (g : A -> B)
      (l : list A) (acc : list B) :
  (forall a, In a l -> f a = if bad a then Raise e else Ok (g a)) ->
  for_each (fun acc a =>
              x <- f a ;; if keep x then Ok (acc ++ [x])%list else Ok acc)
           l acc
  = if existsb bad l then Raise e
    else Ok (acc ++ filter keep (map g l))%list.
Proof.
  revert acc. induction l as [|a l IH]; intros acc H; simpl.
  - now rewrite app_nil_r.
  - rewrite (H a (or_introl eq_refl)). destruct (bad a); simpl; [reflexivity|].
    destruct (keep (g a)); simpl.
    + rewrite IH by (intros; apply H; now right).
      destruct (existsb bad l); [reflexivity|]. now rewrite <- app_assoc.
    + apply IH. intros; apply H; now right.
Qed.

End Loops.

Lemma find_some (f : Tag -> bool) (t x : Tag) :
  find f t = Some x -> f x = true /\ In x (tags_of (descendants t)).
Proof.
  unfold find, find_all. intros H.
  assert (In x (filter f (tags_of (descendants t)))) as Hin.
  { destruct (filter f (tags_of (descendants t))); simpl in H;
      [discriminate | injection H as ->; now left]. }
  apply filter_In in Hin. tauto.
Qed.

Lemma find_none (f : Tag -> bool) (t : Tag) :
  find f t = None ->
  forall x, In x (tags_of (descendants t)) -> f x = false.
Proof.
  unfold find, find_all. intros H x Hx.
  destruct (f x) eqn:E; [|reflexivity].
  assert (In x (filter f (tags_of (descendants t)))) as Hin
      by (apply filter_In; tauto).
  destruct (filter f (tags_of (descendants t))); [destruct Hin | discriminate].
Qed.

Lemma nth_error_last {A : Type} (l : list A) (d : A) :
  l <> [] -> nth_error l (List.length l - 1) = Some (last l d).
Proof.
  induction l as [|a l IH]; [congruence|]. intros _.
  destruct l as [|b l]; [reflexivity|].
  specialize (IH ltac:(discriminate)).
  simpl in *. now rewrite Nat.sub_0_r in IH.
Qed.

Lemma getitem_nat {A : Type} (l : list A) (i : nat) (a : A) :
  nth_error l i = Some a -> getitem l (Z.of_nat i) = Ok a.
Proof.
  intros H. unfold getitem.
  assert ((Z.of_nat i <? 0)%Z = false) as -> by (apply Z.ltb_ge; lia).
  assert ((Z.of_nat i <? 0)%Z = false) as -> by (apply Z.ltb_ge; lia).
  now rewrite Nat2Z.id, H.
Qed.

Lemma getitem_minus_one {A : Type} (l : list A) (a : A) :
  nth_error l (List.length l - 1) = Some a -> getitem l (-1) = Ok a.
Proof.
  intros H. unfold getitem.
  assert (List.length l <> 0%nat) as Hl.
  { destruct l; [discriminate | simpl; lia]. }
  change ((-1 <? 0)%Z) with true. cbv iota.
  assert ((-1 + Z.of_nat (List.length l) <? 0)%Z = false) as ->
      by (apply Z.ltb_ge; lia).
  replace (Z.to_nat (-1 + Z.of_nat (List.length l)))
    with (List.length l - 1)%nat by lia.
  now rewrite H.
Qed.

Lemma nth_error_in_range {A : Type} (l : list A) (i : nat) :
  (i < List.length l)%nat -> exists a, nth_error l i = Some a.
Proof.
  intros H. destruct (nth_error l i) eqn:E; [eauto|].
  apply nth_error_None in E. lia.
Qed.


Lemma find_none_intro (f : Tag -> bool) (t : Tag) :
  (forall x, In x (tags_of (descendants t)) -> f x = false) ->
  find f t = None.
Proof.
  intros H. unfold find, find_all.
  destruct (filter f (tags_of (descendants t))) as [|x l] eqn:E;
    [reflexivity|].
  assert (In x (filter f (tags_of (descendants t)))) as Hx
      by (rewrite E; now left).
  apply filter_In in Hx as [Hx Hf]. rewrite (H x Hx) in Hf. discriminate.
Qed.

Lemma existsb_false_in {A : Type} (p : A -> bool) (l : list A) (x : A) :
  existsb p l = false -> In x l -> p x = false.
Proof.
  intros H Hx. destruct (p x) eqn:E; [|reflexivity].
  assert (existsb p l = true) by (apply existsb_exists; eauto). congruence.
Qed.

(* ================================================================== *)
(** ** The field-change interpreter never raises *)
(* ================================================================== *)

Lemma em_text_token (li : Tag) (i : nat) :
  (i < List.length (ems_of li))%nat ->
  exists v, token li i = Some v
            /\ em_text (ems_of li) (Z.of_nat i) = Ok v.
Proof.
  intros H. destruct (nth_error_in_range _ _ H) as [a Ha].
  exists (get_text "" true a). unfold token, em_text.
  rewrite Ha, (getitem_nat _ _ _ Ha). split; reflexivity.
Qed.

Lemma em_text_last (li : Tag) :
  (1 <= List.length (ems_of li))%nat ->
  exists v, last_token li = Some v /\ em_text (ems_of li) (-1) = Ok v.
Proof.
  intros H.
  destruct (nth_error_in_range (ems_of li) (List.length (ems_of li) - 1))
    as [a Ha]; [lia|].
  exists (get_text "" true a). unfold last_token, token, em_text.
  rewrite Ha, (getitem_minus_one _ _ Ha). split; reflexivity.
Qed.

Lemma truthy_list_length {A : Type} (l : list A) :
  truthy_list l = (1 <=? List.length l)%nat.
Proof. destruct l; reflexivity. Qed.

Lemma token_out_of_range (li : Tag) (i : nat) :
  (List.length (ems_of li) <= i)%nat -> token li i = None.
Proof.
  intros H. unfold token.
  now rewrite (proj2 (nth_error_None (ems_of li) i) H).
Qed.

Ltac leb_facts :=
  repeat match goal with
         | H : (_ <=? _)%nat = true |- _ => apply Nat.leb_le in H
         | H : (_ <=? _)%nat = false |- _ => apply Nat.leb_gt in H
         end.

Ltac use_token li i :=
  let v := fresh "v" in
  let Ht := fresh "Ht" in
  let He := fresh "He" in
  destruct (em_text_token li i) as (v & Ht & He); [lia|];
  simpl Z.of_nat in He; rewrite ?Ht, He; cbn [Py.bind].

Ltac use_last_token li :=
  let v := fresh "v" in
  let Ht := fresh "Ht" in
  let He := fresh "He" in
  destruct (em_text_last li) as (v & Ht & He); [lia|];
  rewrite ?Ht, He; cbn [Py.bind].

Lemma field_entry_ok (li : Tag) : field_entry li = Ok (entry_of li).
Proof.
  unfold field_entry, entry_of, changed_case, set_case, deleted_case, says.
  fold (ems_of li). fold (li_text li).
  rewrite !truthy_list_length.
  replace (1 <? List.length (ems_of li))%nat
    with (2 <=? List.length (ems_of li))%nat
    by (destruct (ems_of li) as [|? [|? ?]]; reflexivity).
  assert (exists e0,
             match find (name_is "strong") li with
             | Some st =>
                 set_field (mkFieldChange None None None None)
                           (get_text "" true st)
             | None => mkFieldChange None None None None
             end = e0
             /\ e0 = mkFieldChange (marker li) None None None)
    as (e0 & -> & ->).
  { unfold marker. destruct (find (name_is "strong") li); eexists; eauto. }
  destruct (contains "changed from" (li_text li)),
           (contains "set to" (li_text li)),
           (contains "deleted" (li_text li)),
           (2 <=? List.length (ems_of li))%nat eqn:E2,
           (1 <=? List.length (ems_of li))%nat eqn:E1;
    leb_facts; try (exfalso; lia); cbn [andb];
    unfold set_action, set_old_value, set_new_value; cbn [field action old_value new_value];
    try (use_token li 0%nat); try (use_token li 1%nat);
    try (use_last_token li);
    rewrite ?(token_out_of_range li 0) by lia;
    reflexivity.
Qed.

(* ================================================================== *)
(** ** What a match consumes *)
(* ================================================================== *)

Lemma append_assoc (a b c : string) : (a ++ b) ++ c = a ++ b ++ c.
Proof. induction a as [|x a IH]; simpl; [reflexivity | now rewrite IH]. Qed.

Lemma append_empty_r (a : string) : a ++ "" = a.
Proof. induction a as [|x a IH]; simpl; [reflexivity | now rewrite IH]. Qed.

Lemma length_append (a b : string) :
  String.length (a ++ b) = (String.length a + String.length b)%nat.
Proof. induction a as [|x a IH]; simpl; [reflexivity | now rewrite IH]. Qed.

Lemma startswith_split (l s : string) :
  startswith l s = true -> s = l ++ drop (String.length l) s.
Proof.
  revert s. induction l as [|a l IH]; intros s H; [reflexivity|].
  destruct s as [|b s]; [discriminate|]. simpl in *.
  apply andb_prop in H as [Hab H]. apply Ascii.eqb_eq in Hab. subst b.
  f_equal. now apply IH.
Qed.

Lemma take_set_split (n : nat) (cs : CharSet) (s p r : string) :
  take_set n cs s = Some (p, r) -> s = p ++ r /\ String.length p = n.
Proof.
  revert s p r. induction n as [|n IH]; intros s p r; simpl.
  - intros [= <- <-]. now split.
  - destruct s as [|c s]; [discriminate|].
    destruct (in_set cs c); [|discriminate].
    destruct (take_set n cs s) as [[p' r']|] eqn:E; [|discriminate].
    intros [= <- <-]. destruct (IH _ _ _ E) as [-> <-]. now split.
Qed.

Lemma plus_matches_split (cs : CharSet) (s p r : string) :
  In (p, r) (plus_matches cs s) ->
  s = p ++ r /\ (1 <= String.length p)%nat.
Proof.
  revert p r. induction s as [|c s IH]; intros p r; simpl; [tauto|].
  destruct (in_set cs c); [|intros []].
  rewrite in_app_iff, in_map_iff.
  intros [((p' & r') & [= <- <-] & Hin) | [[= <- <-] | []]]; simpl.
  - destruct (IH _ _ Hin) as [-> _]. split; [reflexivity | lia].
  - split; [reflexivity | lia].
Qed.

Lemma occurs_in_self (g : string) : occurs_in g g.
Proof. exists "", "". simpl. now rewrite append_empty_r. Qed.

Lemma occurs_in_left (g a b : string) : occurs_in g a -> occurs_in g (a ++ b).
Proof.
  intros (x & y & ->). exists x, (y ++ b). now rewrite !append_assoc.
Qed.

Lemma occurs_in_right (g a b : string) : occurs_in g b -> occurs_in g (a ++ b).
Proof.
  intros (x & y & ->). exists (a ++ x), y. now rewrite !append_assoc.
Qed.

(** Every way of matching splits the text into what is consumed and what
    is left; group 1 lies inside the consumed text, whose length is
    within the bounds of the pattern. *)
Ltac split4 := split; [|split; [|split]].

Lemma rmatch_sound (r : Regex) :
  forall prev s m,
    In m (rmatch r prev s) ->
    s = consumed m ++ rest m
    /\ (forall g, group1 m = Some g -> occurs_in g (consumed m))
    /\ (min_len r <= String.length (consumed m))%nat
    /\ (forall k, max_len r = Some k -> (String.length (consumed m) <= k)%nat).
Proof.
  induction r as [l|cs|n cs|cs| |r1 IH1 r2 IH2|r1 IH1 r2 IH2|r1 IH1|r1 IH1];
    intros prev s m; cbn [rmatch min_len max_len].
  - destruct (startswith l s) eqn:E; [|intros []].
    intros [<-|[]]. cbn [consumed group1 rest].
    split4; [now apply startswith_split | discriminate | lia |].
    intros k [= <-]. lia.
  - destruct s as [|c s]; [intros []|].
    destruct (in_set cs c); [|intros []]. intros [<-|[]].
    cbn [consumed group1 rest].
    split4; [reflexivity | discriminate | simpl; lia |].
    intros k [= <-]. simpl. lia.
  - destruct (take_set n cs s) as [[p r]|] eqn:E; [|intros []].
    intros [<-|[]]. cbn [consumed group1 rest].
    destruct (take_set_split _ _ _ _ _ E) as [-> <-].
    split4; [reflexivity | discriminate | lia |].
    intros k [= <-]. lia.
  - rewrite in_map_iff. intros ((p & r) & <- & Hin).
    cbn [consumed group1 rest fst snd].
    destruct (plus_matches_split _ _ _ _ Hin) as [-> Hl].
    split4; [reflexivity | discriminate | lia | discriminate].
  - destruct (xorb _ _); [|intros []]. intros [<-|[]].
    cbn [consumed group1 rest].
    split4; [reflexivity | discriminate | simpl; lia |].
    intros k [= <-]. simpl. lia.
  - rewrite in_flat_map. intros (m1 & H1 & H2).
    rewrite in_map_iff in H2. destruct H2 as (m2 & <- & H2).
    cbn [consumed group1 rest].
    destruct (IH1 _ _ _ H1) as (E1 & G1 & L1 & U1).
    destruct (IH2 _ _ _ H2) as (E2 & G2 & L2 & U2).
    split4.
    + rewrite append_assoc, <- E2. exact E1.
    + intros g Hg. destruct (group1 m2) as [g2|] eqn:Eg; simpl in Hg.
      * injection Hg as <-. apply occurs_in_right. now apply G2.
      * apply occurs_in_left. now apply G1.
    + rewrite length_append. lia.
    + intros k. rewrite length_append.
      destruct (max_len r1) as [a|], (max_len r2) as [b|]; try discriminate.
      intros [= <-]. specialize (U1 a eq_refl). specialize (U2 b eq_refl). lia.
  - rewrite in_app_iff. intros [H|H].
    + destruct (IH1 _ _ _ H) as (E1 & G1 & L1 & U1).
      split4; [assumption | assumption | lia |].
      intros k. destruct (max_len r1) as [a|], (max_len r2) as [b|];
        try discriminate.
      intros [= <-]. specialize (U1 a eq_refl). lia.
    + destruct (IH2 _ _ _ H) as (E1 & G1 & L1 & U1).
      split4; [assumption | assumption | lia |].
      intros k. destruct (max_len r1) as [a|], (max_len r2) as [b|];
        try discriminate.
      intros [= <-]. specialize (U1 b eq_refl). lia.
  - rewrite in_app_iff. intros [H|[<-|[]]].
    + destruct (IH1 _ _ _ H) as (E1 & G1 & L1 & U1).
      split4; [assumption | assumption | lia | assumption].
    + cbn [consumed group1 rest].
      split4; [reflexivity | discriminate | simpl; lia |].
      intros k _. simpl. lia.
  - rewrite in_map_iff. intros (m1 & <- & H). cbn [consumed group1 rest].
    destruct (IH1 _ _ _ H) as (E1 & G1 & L1 & U1).
    split4; [assumption | | assumption | assumption].
    intros g [= <-]. apply occurs_in_self.
Qed.

Lemma search_from_sound (r : Regex) (s : string) :
  forall prev m,
    search_from r prev s = Some m ->
    exists before prev' s',
      s = before ++ s' /\ In m (rmatch r prev' s').
Proof.
  induction s as [|c s IH]; intros prev m; simpl.
  - destruct (rmatch r prev "") as [|m0 l] eqn:E; [discriminate|].
    intros [= <-]. exists "", prev, "". rewrite E. split; [reflexivity | now left].
  - destruct (rmatch r prev (String c s)) as [|m0 l] eqn:E.
    + intros H. destruct (IH _ _ H) as (b & p & s' & -> & Hin).
      exists (String c b), p, s'. split; [reflexivity | assumption].
    + intros [= <-]. exists "", prev, (String c s). rewrite E.
      split; [reflexivity | now left].
Qed.

(** Group 1 of a search result is a piece of the text searched. *)
Lemma search_group_occurs (r : Regex) (s g : string) (m : Match) :
  re_search r s = Some m -> group1 m = Some g -> occurs_in g s.
Proof.
  intros H Hg. apply search_from_sound in H as (b & p & s' & -> & Hin).
  destruct (rmatch_sound r _ _ _ Hin) as (E & G & _).
  apply occurs_in_right. rewrite E. apply occurs_in_left. now apply G.
Qed.


(** A search result is a match at some position, with the character
    before that position as context. *)
Lemma search_from_position (r : Regex) (s : string) :
  forall prev m,
    search_from r prev s = Some m ->
    exists before s',
      s = before ++ s' /\ In m (rmatch r (last_char before prev) s').
Proof.
  induction s as [|c s IH]; intros prev m; simpl.
  - destruct (rmatch r prev "") as [|m0 l] eqn:E; [discriminate|].
    intros [= <-]. exists "", "". simpl. rewrite E.
    split; [reflexivity | now left].
  - destruct (rmatch r prev (String c s)) as [|m0 l] eqn:E.
    + intros H. destruct (IH _ _ H) as (b & s' & -> & Hin).
      exists (String c b), s'. split; [reflexivity | exact Hin].
    + intros [= <-]. exists "", (String c s). simpl. rewrite E.
      split; [reflexivity | now left].
Qed.

(** A match at some position makes the search succeed. *)
Lemma search_from_found (r : Regex) (before s' : string) :
  forall prev,
    rmatch r (last_char before prev) s' <> [] ->
    search_from r prev (before ++ s') <> None.
Proof.
  induction before as [|c b IH]; intros prev H; simpl in *.
  - destruct s' as [|c s']; simpl;
      destruct (rmatch r prev _); try congruence; discriminate.
  - destruct (rmatch r prev (String c (b ++ s'))); [|discriminate].
    now apply IH.
Qed.
(* ================================================================== *)
(** ** The header interpreter and its comment number *)
(* ================================================================== *)

Lemma search_from_in (r : Regex) (s : string) :
  forall prev m,
    search_from r prev s = Some m ->
    exists prev' s', In m (rmatch r prev' s').
Proof.
  intros prev m H. apply search_from_position in H as (b & s' & _ & Hin).
  eauto.
Qed.

Lemma plus_digits (s p r : string) :
  In (p, r) (plus_matches Digit s) ->
  truthy_str p = true /\ all_digits p = true.
Proof.
  revert p r. induction s as [|c s IH]; intros p r; simpl; [tauto|].
  destruct (is_digit c) eqn:Ec; [|intros []].
  rewrite in_app_iff, in_map_iff.
  intros [((p' & r') & [= <- <-] & Hin) | [[= <- <-] | []]]; simpl.
  - destruct (IH _ _ Hin) as [_ Hd]. now rewrite Ec, Hd.
  - now rewrite Ec.
Qed.

Lemma comment_num_group (prev : option ascii) (s : string) (m : Match) :
  In m (rmatch re_comment_num prev s) ->
  exists d, group1 m = Some d /\ truthy_str d = true /\ all_digits d = true.
Proof.
  unfold re_comment_num. cbn [rmatch].
  rewrite in_flat_map. intros (m1 & _ & Hin).
  rewrite !map_map, in_map_iff in Hin.
  destruct Hin as ((p & r) & <- & Hin). cbn.
  exists p. split; [reflexivity|]. eapply plus_digits; eassumption.
Qed.

(** On digits, [int] raises exactly beyond the limit. *)
Lemma int_of_digits (d : string) :
  truthy_str d = true -> all_digits d = true ->
  int d = if (Z.of_nat (String.length d) <=? max_str_digits)%Z
          then Ok (int_acc 0 d) else Raise ValueError.
Proof. intros H1 H2. unfold int. now rewrite H1, H2. Qed.

Lemma comment_num_ok (s : string) (m : Match) :
  re_search re_comment_num s = Some m ->
  exists d,
    group1 m = Some d
    /\ int_group (group1 m)
       = if (Z.of_nat (String.length d) <=? max_str_digits)%Z
         then Ok (int_acc 0 d) else Raise ValueError.
Proof.
  intros H. apply search_from_in in H as (prev & s' & Hin).
  apply comment_num_group in Hin as (d & Hg & Ht & Hd).
  exists d. rewrite Hg. split; [reflexivity|]. now apply int_of_digits.
Qed.

Lemma dated_anchor_title (h3 tg : Tag) :
  find is_dated_anchor h3 = Some tg ->
  exists v, title (attrs tg) = Some v /\ getitem_title tg = Ok v.
Proof.
  intros H. apply find_some in H as [H _].
  unfold is_dated_anchor, matches_re in H. apply andb_prop in H as [_ H].
  unfold getitem_title. destruct (title (attrs tg)) as [v|]; [|discriminate].
  eauto.
Qed.

Ltac hdr_simpl :=
  cbn [Py.bind option_map];
  unfold set_hdr_raw, set_hdr_comment_num, set_hdr_timestamp, set_hdr_author;
  cbn [hdr_comment_num hdr_timestamp hdr_author hdr_raw].

Ltac hdr_rest h3 :=
  hdr_simpl;
  let Et := fresh "Et" in
  (destruct (find is_dated_anchor h3) as [?|] eqn:Et;
   [destruct (dated_anchor_title _ _ Et) as (? & -> & ->)
   | destruct (re_search re_timestamp (raw_of h3))]);
  hdr_simpl;
  (destruct (find is_author_span h3);
   [| destruct (re_search re_by_author (raw_of h3))]);
  reflexivity.

(** The header interpreter raises only at [int], on a comment number
    beyond the limit; otherwise it returns the closed form. *)
Lemma parse_change_header_result (h3 : Tag) :
  _parse_change_header h3
  = if oversized h3 then Raise ValueError else Ok (header_of h3).
Proof.
  unfold _parse_change_header, header_of, comment_num_of, timestamp_of,
    author_of, oversized, number_digits.
  fold (cnum_tag_of h3). fold (raw_of h3). hdr_simpl.
  destruct (cnum_tag_of h3) as [ctag|]; [|hdr_rest h3].
  destruct (re_search re_comment_num (get_text "" false ctag)) as [m|] eqn:Em;
    [|hdr_rest h3].
  destruct (comment_num_ok _ _ Em) as (d & Hg & ->). rewrite Hg.
  destruct (Z.of_nat (String.length d) <=? max_str_digits)%Z;
    cbn [negb]; [hdr_rest h3 | reflexivity].
Qed.

Lemma parse_change_header_returned (h3 : Tag) (header : Header) :
  _parse_change_header h3 = Ok header ->
  header = header_of h3 /\ oversized h3 = false.
Proof.
  rewrite parse_change_header_result.
  destruct (oversized h3); [discriminate|]. intros [= <-]. now split.
Qed.

(** *** A comment number beyond the limit *)

Lemma nines_digits (n : nat) :
  all_digits (nines n) = true /\ String.length (nines n) = n.
Proof.
  induction n as [|n [IH1 IH2]]; [now split|].
  simpl. rewrite IH1, IH2. now split.
Qed.

Lemma plus_digits_longest (d : string) :
  truthy_str d = true -> all_digits d = true ->
  exists l, plus_matches Digit d = (d, "") :: l.
Proof.
  induction d as [|c d IH]; [discriminate|]. intros _ H.
  simpl in H. apply andb_prop in H as [Hc Hd].
  cbn [plus_matches in_set]. rewrite Hc.
  destruct d as [|c' d'].
  - simpl. eauto.
  - destruct (IH eq_refl Hd) as (l & ->). simpl. eauto.
Qed.

(** In the text "comment:" followed by digits only, the digits found are
    all of them. *)
Lemma comment_num_of_digits (d : string) :
  truthy_str d = true -> all_digits d = true ->
  exists m, re_search re_comment_num ("comment:" ++ d) = Some m
            /\ group1 m = Some d.
Proof.
  intros Ht Hd. destruct (plus_digits_longest d Ht Hd) as (l & Hl).
  unfold re_search, re_comment_num.
  cbn [append search_from rmatch startswith Ascii.eqb Bool.eqb andb
       String.length drop flat_map map consumed rest last_char app].
  rewrite Hl. cbn [map app fst snd]. eexists. split; reflexivity.
Qed.

Lemma numbered_heading_digits (n : nat) :
  number_digits (numbered_heading (S n)) = Some (nines (S n)).
Proof.
  destruct (nines_digits (S n)) as [Hd _].
  destruct (comment_num_of_digits (nines (S n)) eq_refl Hd) as (m & Hm & Hg).
  unfold number_digits, numbered_heading.
  remember (nines (S n)) as d eqn:Ed.
  assert (cnum_tag_of
            (mkTag "h3" (mkAttrs ["change"] None None None)
                   [elem "span" ["cnum"] [text ("comment:" ++ d)]])
          = Some (mkTag "span" (mkAttrs ["cnum"] None None None)
                        [text ("comment:" ++ d)])) as -> by reflexivity.
  assert (get_text "" false
                   (mkTag "span" (mkAttrs ["cnum"] None None None)
                          [text ("comment:" ++ d)])
          = "comment:" ++ d) as -> by reflexivity.
  now rewrite Hm.
Qed.

Lemma numbered_heading_oversized (n : nat) :
  oversized (numbered_heading (S n))
  = negb (Z.of_nat (S n) <=? max_str_digits)%Z.
Proof.
  unfold oversized. rewrite numbered_heading_digits.
  now rewrite (proj2 (nines_digits (S n))).
Qed.
(* ================================================================== *)
(** ** Closed forms of the list, block and document interpreters *)
(* ================================================================== *)

Lemma parse_field_changes_ok (ul : Tag) :
  _parse_field_changes ul = Ok (entries_of ul).
Proof.
  unfold _parse_field_changes, entries_of, field_changes_step.
  fold (list_items ul).
  rewrite (for_each_collect field_entry kept_entry entry_of); [reflexivity|].
  intros li _. apply field_entry_ok.
Qed.

(** A block is given up only for the comment number of its heading. *)
Lemma block_event_result (block : Tag) :
  block_event block
  = if block_oversized block then Raise ValueError else Ok (event_of block).
Proof.
  unfold block_event, event_of, heading_of, block_oversized,
    _parse_comment_text.
  fold newline.
  destruct (find is_change_heading block) as [h3|];
    [rewrite parse_change_header_result;
     destruct (oversized h3); [reflexivity|] |];
    cbn [Py.bind option_map];
    (destruct (find is_changes_list block) as [ul|];
     [rewrite parse_field_changes_ok|]);
    cbn [Py.bind];
    destruct (find is_comment_div block); reflexivity.
Qed.

Lemma block_event_returned (block : Tag) (event : Event) :
  block_event block = Ok event ->
  event = event_of block /\ block_oversized block = false.
Proof.
  rewrite block_event_result.
  destruct (block_oversized block); [discriminate|]. intros [= <-]. now split.
Qed.

Lemma parse_changelog_result (soup : Tag) :
  _parse_changelog soup
  = if existsb block_oversized (change_blocks soup) then Raise ValueError
    else Ok (events_of soup).
Proof.
  unfold _parse_changelog, events_of, changelog_step.
  rewrite (for_each_guarded block_event retained block_oversized ValueError
                            event_of); [reflexivity|].
  intros b _. apply block_event_result.
Qed.

Lemma parse_changelog_returned (soup : Tag) (events : list Event) :
  _parse_changelog soup = Ok events ->
  events = events_of soup
  /\ forall block, In block (change_blocks soup) ->
                   block_event block = Ok (event_of block).
Proof.
  rewrite parse_changelog_result.
  destruct (existsb block_oversized (change_blocks soup)) eqn:E;
    [discriminate|].
  intros [= <-]. split; [reflexivity|]. intros block Hb.
  rewrite block_event_result.
  now rewrite (existsb_false_in _ _ _ E Hb).
Qed.

Lemma block_retained_event (block : Tag) :
  block_event block = Ok (event_of block) ->
  block_retained block = retained (event_of block).
Proof. intros H. unfold block_retained. now rewrite H. Qed.

Lemma item_kept_entry (li : Tag) : item_kept li = kept_entry (entry_of li).
Proof. unfold item_kept. now rewrite field_entry_ok. Qed.

Lemma Forall2_filter_map {A B : Type} (p : A -> bool) (q : B -> bool)
      (g : A -> B) (l : list A) :
  (forall a, In a l -> p a = q (g a)) ->
  Forall2 (fun a b => b = g a) (filter p l) (filter q (map g l)).
Proof.
  induction l as [|a l IH]; intros H; simpl; [constructor|].
  rewrite (H a (or_introl eq_refl)).
  assert (Forall2 (fun a b => b = g a) (filter p l) (filter q (map g l)))
    by (apply IH; intros; apply H; now right).
  destruct (q (g a)); [constructor|]; auto.
Qed.

Lemma retained_spec (event : Event) :
  retained event = true
  <-> field_changes event <> [] \/ comment event <> "".
Proof.
  unfold retained.
  destruct (field_changes event), (comment event); simpl;
    intuition (try discriminate; try congruence).
Qed.

Lemma kept_entry_spec (e : FieldChange) :
  kept_entry e = true <-> exists nm, field e = Some nm /\ nm <> "".
Proof.
  unfold kept_entry. destruct (field e) as [[|c s]|]; simpl; split;
    try discriminate; try reflexivity.
  - intros (nm & [= <-] & H). congruence.
  - intros _. eexists; split; [reflexivity | discriminate].
  - intros (nm & H & _). discriminate.
Qed.
(* ================================================================== *)
(** ** Retention and order *)
(* ================================================================== *)

(** C1, as the code has it.  When no heading of a change block carries a
    comment number beyond the limit of [int], parsing returns a list, and
    for every change block the event assembled from it is in that list if
    and only if its field changes are not empty or its comment is not the
    empty string; a block with neither a field-change list nor a comment
    region yields no element. *)
Theorem retention_iff (soup : Tag) :
  existsb block_oversized (change_blocks soup) = false ->
  exists events,
    _parse_changelog soup = Ok events
    /\ forall block,
        In block (change_blocks soup) ->
        exists event,
          block_event block = Ok event
          /\ (In event events
              <-> field_changes event <> [] \/ comment event <> "")
          /\ (find is_changes_list block = None ->
              find is_comment_div block = None ->
              ~ In event events).
Proof.
  intros Hfit. exists (events_of soup).
  assert (_parse_changelog soup = Ok (events_of soup)) as Hp
      by (rewrite parse_changelog_result; now rewrite Hfit).
  split; [exact Hp|].
  intros block Hb. exists (event_of block).
  split; [now apply (parse_changelog_returned _ _ Hp)|].
  assert (In (event_of block) (events_of soup)
          <-> retained (event_of block) = true) as Hin.
  { unfold events_of. rewrite filter_In, in_map_iff. split; [tauto|].
    intros H. split; [eauto | assumption]. }
  split.
  - rewrite Hin. apply retained_spec.
  - intros Hul Hdiv. rewrite Hin. unfold event_of, retained.
    rewrite Hul, Hdiv. simpl. discriminate.
Qed.

Lemma retention_iff_witness :
  exists events,
    _parse_changelog page_with_stray_block = Ok events
    /\ forall block,
        In block (change_blocks page_with_stray_block) ->
        exists event,
          block_event block = Ok event
          /\ (In event events
              <-> field_changes event <> [] \/ comment event <> "")
          /\ (find is_changes_list block = None ->
              find is_comment_div block = None ->
              ~ In event events).
Proof. apply (retention_iff page_with_stray_block). reflexivity. Defined.

(** C1, counterexample.  A change block with neither a field list nor a
    comment, whose heading carries a comment number of 4301 digits: the
    block is not dropped in silence, parsing the page raises. *)
Lemma oversized_block_raises :
  In (numbered_block 4301) (change_blocks (numbered_page 4301))
  /\ find is_changes_list (numbered_block 4301) = None
  /\ find is_comment_div (numbered_block 4301) = None
  /\ block_event (numbered_block 4301) = Raise ValueError
  /\ _parse_changelog (numbered_page 4301) = Raise ValueError.
Proof.
  assert (block_oversized (numbered_block 4301) = true) as Hb.
  { change (block_oversized (numbered_block 4301))
      with (oversized (numbered_heading 4301)).
    rewrite numbered_heading_oversized. vm_compute. reflexivity. }
  split; [now left|]. split; [reflexivity|]. split; [reflexivity|].
  split.
  - rewrite block_event_result. now rewrite Hb.
  - rewrite parse_changelog_result.
    change (change_blocks (numbered_page 4301)) with [numbered_block 4301].
    cbn [existsb]. now rewrite Hb.
Qed.

(** C6. The events come in the document order of their blocks: a list
    returned by the parser pairs off, position by position, with the
    change blocks that pass the retention test taken in document order,
    so both have the same length; and the field changes of each event
    pair off in the same way with the list items of the block's field
    list that are kept. *)
Theorem document_order (soup : Tag) (events : list Event) :
  _parse_changelog soup = Ok events ->
  change_blocks soup
  = filter is_change_block (tags_of (descendants (changelog_root soup)))
  /\ List.length events
     = List.length (filter block_retained (change_blocks soup))
  /\ Forall2
       (fun block event =>
          block_event block = Ok event
          /\ match find is_changes_list block with
             | Some ul =>
                 Forall2 (fun li entry => field_entry li = Ok entry)
                         (filter item_kept (list_items ul))
                         (field_changes event)
             | None => field_changes event = []
             end)
       (filter block_retained (change_blocks soup)) events.
Proof.
  intros Hp. destruct (parse_changelog_returned _ _ Hp) as [-> Hok].
  split; [reflexivity|].
  assert (Forall2 (fun block event => event = event_of block)
                  (filter block_retained (change_blocks soup))
                  (events_of soup)) as H.
  { apply Forall2_filter_map. intros b Hb.
    now apply block_retained_event, Hok. }
  split; [symmetry; eapply Forall2_length; eassumption|].
  assert (forall b, In b (filter block_retained (change_blocks soup)) ->
                    block_event b = Ok (event_of b)) as Hok'.
  { intros b Hb. apply filter_In in Hb as [Hb _]. now apply Hok. }
  revert H Hok'.
  generalize (filter block_retained (change_blocks soup)), (events_of soup).
  induction 1 as [|block event l l' -> _ IH]; intros Hok'; constructor.
  - split; [apply Hok'; now left|].
    unfold event_of. cbn [field_changes].
    destruct (find is_changes_list block) as [ul|]; [|reflexivity].
    eapply Forall2_impl;
      [| apply (Forall2_filter_map item_kept kept_entry entry_of)].
    + intros li entry ->. apply field_entry_ok.
    + intros li _. apply item_kept_entry.
  - apply IH. intros b Hb. apply Hok'. now right.
Qed.

Lemma document_order_witness :
  change_blocks plain_scenario_page
  = filter is_change_block
           (tags_of (descendants (changelog_root plain_scenario_page)))
  /\ List.length [scenario_event None]
     = List.length (filter block_retained (change_blocks plain_scenario_page))
  /\ Forall2
       (fun block event =>
          block_event block = Ok event
          /\ match find is_changes_list block with
             | Some ul =>
                 Forall2 (fun li entry => field_entry li = Ok entry)
                         (filter item_kept (list_items ul))
                         (field_changes event)
             | None => field_changes event = []
             end)
       (filter block_retained (change_blocks plain_scenario_page))
       [scenario_event None].
Proof.
  apply (document_order plain_scenario_page [scenario_event None]).
  reflexivity.
Defined.
(* ================================================================== *)
(** ** Items without a field-name marker *)
(* ================================================================== *)

Lemma tags_of_app (l1 l2 : list PageElement) :
  tags_of (l1 ++ l2)%list = (tags_of l1 ++ tags_of l2)%list.
Proof. unfold tags_of. apply flat_map_app. Qed.



(* ================================================================== *)
(** ** Classification of the action *)
(* ================================================================== *)

(** C2. The entry computed for a list item classifies the action by
    substring search over the rendered text, in this order: "changed from"
    with two value tokens or more gives [changed], old value the first
    token and new value the second; else "set to" with a token gives [set],
    new value the first token; else "deleted" gives [deleted], old value
    the first token when there is one; else a token gives [modified], new
    value the last token and old value the first when there are two or
    more.  So [modified] is never the action when one of the three guarded
    cases applies. *)
Theorem action_priority (li : Tag) :
  exists entry,
    field_entry li = Ok entry
    /\ (says "changed from" li = true /\ (2 <= List.length (ems_of li))%nat ->
        action entry = Some "changed"
        /\ old_value entry = token li 0 /\ new_value entry = token li 1
        /\ exists o n, token li 0 = Some o /\ token li 1 = Some n)
    /\ (~ (says "changed from" li = true /\ (2 <= List.length (ems_of li))%nat) ->
        says "set to" li = true /\ (1 <= List.length (ems_of li))%nat ->
        action entry = Some "set"
        /\ old_value entry = None /\ new_value entry = token li 0
        /\ exists n, token li 0 = Some n)
    /\ (~ (says "changed from" li = true /\ (2 <= List.length (ems_of li))%nat) ->
        ~ (says "set to" li = true /\ (1 <= List.length (ems_of li))%nat) ->
        says "deleted" li = true ->
        action entry = Some "deleted"
        /\ old_value entry = token li 0 /\ new_value entry = None)
    /\ (~ (says "changed from" li = true /\ (2 <= List.length (ems_of li))%nat) ->
        ~ (says "set to" li = true /\ (1 <= List.length (ems_of li))%nat) ->
        says "deleted" li = false ->
        (1 <= List.length (ems_of li))%nat ->
        action entry = Some "modified"
        /\ new_value entry = last_token li
        /\ (exists n, last_token li = Some n)
        /\ ((2 <= List.length (ems_of li))%nat -> old_value entry = token li 0)
        /\ ((List.length (ems_of li) < 2)%nat -> old_value entry = None))
    /\ (action entry = Some "modified" ->
        ~ (says "changed from" li = true /\ (2 <= List.length (ems_of li))%nat)
        /\ ~ (says "set to" li = true /\ (1 <= List.length (ems_of li))%nat)
        /\ says "deleted" li = false).
Proof.
  exists (entry_of li). split; [apply field_entry_ok|].
  assert (forall i, (i < List.length (ems_of li))%nat ->
                    exists v, token li i = Some v) as Htok.
  { intros i Hi. destruct (em_text_token li i Hi) as (v & Hv & _). eauto. }
  assert ((1 <= List.length (ems_of li))%nat ->
          exists v, last_token li = Some v) as Hlast.
  { intros Hi. destruct (em_text_last li Hi) as (v & Hv & _). eauto. }
  unfold entry_of, changed_case, set_case, deleted_case.
  destruct (says "changed from" li), (says "set to" li), (says "deleted" li),
           (2 <=? List.length (ems_of li))%nat eqn:E2,
           (1 <=? List.length (ems_of li))%nat eqn:E1;
    leb_facts; try (exfalso; lia);
    cbn [andb action old_value new_value];
    repeat split; intros;
    try discriminate; try reflexivity; try lia; try tauto;
    try (apply Htok; lia); try (apply Hlast; lia);
    try (destruct (Htok 0%nat ltac:(lia)) as (o & Ho);
         destruct (Htok 1%nat ltac:(lia)) as (n & Hn); eauto; fail);
    try (intros [_ ?]; lia); try (intros [? _]; discriminate).
Qed.

(* ================================================================== *)
(** ** Comment text *)
(* ================================================================== *)

Lemma last_char_nonempty (s : string) (p q : option ascii) :
  s <> "" -> last_char s p = last_char s q.
Proof. destruct s; [congruence | reflexivity]. Qed.

Lemma last_char_app (a b : string) (p : option ascii) :
  last_char (a ++ b) p = last_char b (last_char a p).
Proof. revert p. induction a as [|c a IH]; intros p; simpl; auto. Qed.

Lemma lstrip_head (s : string) :
  match lstrip s with
  | EmptyString => True
  | String c _ => is_space c = false
  end.
Proof.
  induction s as [|c s IH]; simpl; [exact I|].
  destruct (is_space c) eqn:E; [exact IH | exact E].
Qed.

Lemma rstrip_head (c : ascii) (r : string) :
  rstrip (String c r) = "" \/ exists r', rstrip (String c r) = String c r'.
Proof.
  simpl. destruct (rstrip r); [destruct (is_space c)|]; eauto.
Qed.

Lemma rstrip_last (s : string) :
  rstrip s = ""
  \/ exists d, last_char (rstrip s) None = Some d /\ is_space d = false.
Proof.
  induction s as [|c s IH]; simpl; [now left|].
  destruct (rstrip s) as [|c' r'] eqn:E.
  - destruct (is_space c) eqn:Ec; [now left|]. right. exists c. now split.
  - right. destruct IH as [IH | (d & Hd & Hs)]; [discriminate|].
    exists d. split; [|assumption].
    simpl in *. exact Hd.
Qed.

Lemma strip_solid (s : string) : strip s <> "" -> solid (strip s).
Proof.
  unfold strip. intros Hne.
  pose proof (lstrip_head s) as Hh.
  destruct (lstrip s) as [|c r] eqn:El; [now simpl in Hne|].
  destruct (rstrip_head c r) as [H0 | (r' & Hr)]; [congruence|].
  destruct (rstrip_last (String c r)) as [H0 | (d & Hd & Hs)]; [congruence|].
  rewrite Hr in *. simpl. split; [assumption|]. exists d. now split.
Qed.

Lemma rstrip_fixed (s : string) (d : ascii) :
  last_char s None = Some d -> is_space d = false -> rstrip s = s.
Proof.
  induction s as [|c s IH]; intros Hl Hd; [reflexivity|].
  simpl in *. destruct s as [|c' s'].
  - simpl in *. injection Hl as ->. now rewrite Hd.
  - rewrite IH; [reflexivity | | assumption].
    simpl in *. exact Hl.
Qed.

Lemma solid_trimmed (s : string) : solid s -> trimmed s.
Proof.
  destruct s as [|c r]; [intros []|]. intros (Hc & d & Hl & Hd).
  unfold trimmed, strip. simpl lstrip. rewrite Hc.
  eapply rstrip_fixed; eassumption.
Qed.

Lemma solid_app (x sep y : string) : solid x -> solid y -> solid (x ++ sep ++ y).
Proof.
  destruct x as [|c r]; [intros []|]. intros (Hc & _) Hy.
  destruct y as [|c' r']; [destruct Hy|]. destruct Hy as (_ & d & Hl & Hd).
  simpl. split; [assumption|]. exists d. split; [|assumption].
  change (last_char (String c r ++ sep ++ String c' r') None = Some d).
  rewrite !last_char_app. simpl in *. exact Hl.
Qed.

Lemma join_solid (sep : string) (l : list string) :
  Forall solid l -> l <> [] -> solid (join sep l).
Proof.
  induction l as [|x l IH]; [congruence|]. intros Hall _.
  inversion Hall as [|? ? Hx Hl]; subst.
  destruct l as [|y l]; [exact Hx|].
  change (solid (x ++ sep ++ join sep (y :: l))).
  apply solid_app; [assumption|]. apply IH; [assumption | discriminate].
Qed.

Lemma fragments_solid (region : Tag) : Forall solid (fragments region).
Proof.
  unfold fragments, _all_strings. apply Forall_forall. intros s Hs.
  apply in_flat_map in Hs as (e & _ & Hs).
  destruct e as [t|x|x]; try destruct Hs.
  destruct (truthy_str (strip x)) eqn:E; [|destruct Hs].
  destruct Hs as [<-|[]]. apply strip_solid.
  intros H0. now rewrite H0 in E.
Qed.

Lemma rendered_trimmed (region : Tag) :
  trimmed (join newline (fragments region)).
Proof.
  destruct (fragments region) eqn:E; [reflexivity|].
  apply solid_trimmed. rewrite <- E.
  apply join_solid; [apply fragments_solid | rewrite E; discriminate].
Qed.

Lemma fragments_text_nodes (region : Tag) :
  fragments region = filter truthy_str (map strip (text_nodes region)).
Proof.
  unfold fragments, text_nodes, _all_strings.
  induction (descendants region) as [|e l IH]; [reflexivity|].
  destruct e as [t|x|x]; simpl; try exact IH.
  destruct (truthy_str (strip x)); simpl; now rewrite IH.
Qed.

Lemma find_exists (f : Tag -> bool) (t x : Tag) :
  In x (tags_of (descendants t)) -> f x = true ->
  exists y, find f t = Some y.
Proof.
  intros Hx Hf. destruct (find f t) eqn:E; [eauto|].
  rewrite (find_none f t E x Hx) in Hf. discriminate.
Qed.

(** *** The comment pattern *)

Lemma startswith_comment (after : string) :
  startswith "comment" ("comment" ++ after) = true.
Proof. reflexivity. Qed.

(** Where the comment pattern matches: at the word "comment", with no
    word character on either side. *)
Lemma comment_class_at (p : option ascii) (s : string) :
  rmatch re_comment_class p s <> []
  <-> word_at p = false
      /\ exists after,
          s = "comment" ++ after /\ word_at (first_char after) = false.
Proof.
  unfold re_comment_class. cbn [rmatch].
  destruct (startswith "comment" s) eqn:Es.
  - apply startswith_split in Es. cbn [String.length] in Es.
    set (after := drop 7 s) in *.
    assert (word_at (first_char s) = true) as Hc by (now rewrite Es).
    rewrite Hc.
    assert (startswith "comment" s = true) as Es'
        by (rewrite Es; apply startswith_comment).
    destruct (word_at p); cbn [xorb negb flat_map app map consumed rest].
    + split; [congruence|]. intros [H _]. discriminate.
    + rewrite Es'. cbn [flat_map app map consumed rest last_char append].
      change (word_at (Some "t"%char)) with true.
      change (drop (String.length "comment") s) with after.
      destruct (word_at (first_char after)) eqn:Ea;
        cbn [xorb negb flat_map app map].
      * split; [congruence|]. intros (_ & a' & Ha & Hw).
        rewrite Es in Ha. injection Ha as <-. congruence.
      * split; [|discriminate]. intros _. split; [reflexivity|].
        exists after. now split.
  - split.
    + destruct (xorb (word_at p) (word_at (first_char s)));
        cbn [flat_map app map consumed rest]; [|congruence].
      rewrite Es. cbn [flat_map app map]. congruence.
    + intros (_ & after & -> & _). rewrite startswith_comment in Es.
      discriminate.
Qed.

Lemma comment_class_search (s : string) :
  is_some (re_search re_comment_class s) = true <-> word_comment_in s.
Proof.
  unfold word_comment_in, re_search. split.
  - destruct (search_from re_comment_class None s) as [m|] eqn:E;
      [|discriminate].
    intros _. apply search_from_position in E as (b & s' & -> & Hin).
    assert (rmatch re_comment_class (last_char b None) s' <> []) as Hne
        by (intros H0; rewrite H0 in Hin; destruct Hin).
    apply comment_class_at in Hne as (Hp & after & -> & Ha).
    exists b, after. now repeat split.
  - intros (b & after & -> & Hp & Ha).
    assert (rmatch re_comment_class (last_char b None) ("comment" ++ after)
            <> []) as Hne
        by (apply comment_class_at; split; [assumption | eauto]).
    apply search_from_found in Hne.
    destruct (search_from re_comment_class None (b ++ "comment" ++ after));
      [reflexivity | congruence].
Qed.

Lemma comment_class_styled (cls : list string) :
  class_matches_re cls re_comment_class = true <-> comment_styled cls.
Proof.
  unfold class_matches_re, comment_styled.
  rewrite orb_true_iff, existsb_exists, comment_class_search.
  split; (intros [(tok & Hin & H)|H]; [left | now right]);
    exists tok; (split; [assumption|]); now apply comment_class_search.
Qed.

Lemma is_comment_div_spec (d : Tag) :
  is_comment_div d = true
  <-> name d = "div" /\ comment_styled (class_ (attrs d)).
Proof.
  unfold is_comment_div, name_is.
  now rewrite andb_true_iff, String.eqb_eq, comment_class_styled.
Qed.

(** C9, as the code has it.  The comment of a block is the text of its
    comment region, a [div] whose class attribute has the word "comment"
    between characters that are not word characters, in one token or in
    the whole value: the text nodes of the region, each with the white
    space at its ends removed and the blank ones left out, joined by
    line feeds, so the result has no white space at either end.  Any
    such [div] in the block gives a region; when the block has none, the
    comment is the empty string; [_parse_comment_text] is a string in
    every case and the empty string for [None]. *)
Theorem comment_text_extraction (block : Tag) (event : Event) :
  block_event block = Ok event ->
  (forall region,
      find is_comment_div block = Some region ->
      name region = "div"
      /\ comment_styled (class_ (attrs region))
      /\ comment event = _parse_comment_text (Some region)
      /\ comment event
         = join newline (filter truthy_str (map strip (text_nodes region))))
  /\ trimmed (comment event)
  /\ (forall d,
         In d (tags_of (descendants block)) ->
         name d = "div" -> comment_styled (class_ (attrs d)) ->
         exists region, find is_comment_div block = Some region)
  /\ ((forall d,
          In d (tags_of (descendants block)) ->
          name d = "div" -> ~ comment_styled (class_ (attrs d))) ->
      comment event = "")
  /\ _parse_comment_text None = "".
Proof.
  intros Hev. apply block_event_returned in Hev as [-> _].
  unfold event_of. cbn [comment].
  split; [|split; [|split; [|split]]].
  - intros region Hr. rewrite Hr.
    pose proof (find_some _ _ _ Hr) as [Hf _].
    apply is_comment_div_spec in Hf as [Hn Hc].
    repeat split; try assumption. now rewrite fragments_text_nodes.
  - destruct (find is_comment_div block); [apply rendered_trimmed | reflexivity].
  - intros d Hd Hn Hc. apply (find_exists _ _ d Hd).
    now apply is_comment_div_spec.
  - intros H. destruct (find is_comment_div block) as [region|] eqn:E;
      [|reflexivity].
    apply find_some in E as [Hf Hin].
    apply is_comment_div_spec in Hf as [Hn Hc].
    destruct (H region Hin Hn Hc).
  - reflexivity.
Qed.

Lemma comment_text_extraction_witness :
  (forall region,
      find is_comment_div comment_only_block = Some region ->
      name region = "div"
      /\ comment_styled (class_ (attrs region))
      /\ "Looks good" ++ newline ++ "to me."
         = _parse_comment_text (Some region)
      /\ "Looks good" ++ newline ++ "to me."
         = join newline (filter truthy_str (map strip (text_nodes region))))
  /\ trimmed ("Looks good" ++ newline ++ "to me.")
  /\ (forall d,
         In d (tags_of (descendants comment_only_block)) ->
         name d = "div" -> comment_styled (class_ (attrs d)) ->
         exists region, find is_comment_div comment_only_block = Some region)
  /\ ((forall d,
          In d (tags_of (descendants comment_only_block)) ->
          name d = "div" -> ~ comment_styled (class_ (attrs d))) ->
      "Looks good" ++ newline ++ "to me." = "")
  /\ _parse_comment_text None = "".
Proof.
  apply (comment_text_extraction
           comment_only_block
           (mkEvent None None None [] ("Looks good" ++ newline ++ "to me."))).
  reflexivity.
Defined.

(** C9, counterexample.  A block whose only [div] has the class token
    "comment-form": no element carries the class token "comment", yet the
    comment is the text of that [div].  And in a region with one
    paragraph and no paragraph break, the pieces of text around an
    inline element come out on lines of their own. *)
Lemma comment_region_by_pattern :
  (forall d, In d (tags_of (descendants reply_form_block)) ->
             ~ In "comment" (class_ (attrs d)))
  /\ block_event reply_form_block
     = Ok (mkEvent None None None [] "Add a reply")
  /\ block_event inline_markup_block
     = Ok (mkEvent None None None []
                   ("Hello" ++ newline ++ "big" ++ newline ++ "world")).
Proof.
  split; [|split; reflexivity].
  intros d [<-|[]] [H|[]]. discriminate.
Qed.
(* ================================================================== *)
(** ** The header interpreter *)
(* ================================================================== *)

Lemma contains_tail (l : string) (c : ascii) (s : string) :
  contains l (String c s) = false ->
  startswith l (String c s) = false /\ contains l s = false.
Proof. simpl. intros H. now apply orb_false_iff in H. Qed.

(** A text without a digit holds no timestamp. *)
Lemma no_digit_no_timestamp (s : string) :
  has_digit s = false -> re_search re_timestamp s = None.
Proof.
  unfold re_search. generalize (@None ascii).
  induction s as [|c s IH]; intros prev H.
  - reflexivity.
  - simpl in H. apply orb_false_iff in H as [Hc Hs].
    cbn [search_from]. unfold re_timestamp at 1.
    cbn [rmatch take_set in_set]. rewrite Hc. cbn [flat_map map].
    now apply IH.
Qed.

(** A text without "by" holds no author. *)
Lemma no_by_no_author (s : string) :
  contains "by" s = false -> re_search re_by_author s = None.
Proof.
  unfold re_search. generalize (@None ascii).
  induction s as [|c s IH]; intros prev H.
  - cbn [search_from]. unfold re_by_author. cbn [rmatch first_char word_at].
    destruct (xorb (word_at prev) false); reflexivity.
  - apply contains_tail in H as [Hs Hc].
    cbn [search_from]. unfold re_by_author at 1. cbn [rmatch].
    destruct (xorb (word_at prev) (word_at (first_char (String c s))));
      cbn [flat_map map consumed rest last_char app].
    + rewrite Hs. cbn [flat_map map app]. now apply IH.
    + now apply IH.
Qed.

Lemma no_span_or_anchor_finds (h3 : Tag) :
  no_span_or_anchor h3 = true ->
  cnum_tag_of h3 = None
  /\ find is_dated_anchor h3 = None
  /\ find is_author_span h3 = None.
Proof.
  intros H. unfold no_span_or_anchor in H.
  assert (forall x, In x (tags_of (descendants h3)) ->
                    name_is "span" x = false /\ name_is "a" x = false) as Hx.
  { intros x Hin. pose proof (proj1 (forallb_forall _ _) H x Hin) as Hn.
    apply negb_true_iff, orb_false_iff in Hn. exact Hn. }
  assert (find is_cnum_span h3 = None) as H1.
  { apply find_none_intro. intros x Hin. unfold is_cnum_span.
    now rewrite (proj1 (Hx x Hin)). }
  assert (find is_comment_anchor h3 = None) as H2.
  { apply find_none_intro. intros x Hin. unfold is_comment_anchor.
    now rewrite (proj2 (Hx x Hin)). }
  split; [unfold cnum_tag_of; now rewrite H1, H2|]. split.
  - apply find_none_intro. intros x Hin. unfold is_dated_anchor.
    now rewrite (proj2 (Hx x Hin)).
  - apply find_none_intro. intros x Hin. unfold is_author_span.
    now rewrite (proj1 (Hx x Hin)).
Qed.

(** A heading with nothing to extract is never refused, and gives no
    field. *)
Lemma malformed_heading_returns (h3 : Tag) :
  malformed_heading h3 = true ->
  oversized h3 = false
  /\ _parse_change_header h3 = Ok (mkHeader None None None (raw_of h3)).
Proof.
  unfold malformed_heading. rewrite !andb_true_iff, !negb_true_iff.
  intros [[Hn Hd] Hb].
  destruct (no_span_or_anchor_finds h3 Hn) as (Hc & Ht & Ha).
  assert (oversized h3 = false) as Ho
      by (unfold oversized, number_digits; now rewrite Hc).
  split; [exact Ho|].
  rewrite parse_change_header_result, Ho.
  unfold header_of, comment_num_of, timestamp_of, author_of.
  now rewrite Hc, Ht, Ha, (no_digit_no_timestamp _ Hd), (no_by_no_author _ Hb).
Qed.

(** C8, as the code has it.  For every heading whose comment number has
    no more digits than [int] accepts, or that has no comment number, the
    header interpreter returns a record and does not raise; its three
    fields are optional, and for a heading with no span, no anchor and a
    text without a digit and without "by" all three are absent. *)
Theorem header_returns (h3 : Tag) :
  oversized h3 = false ->
  exists header,
    _parse_change_header h3 = Ok header
    /\ hdr_raw header = get_text " " true h3
    /\ (malformed_heading h3 = true ->
        hdr_comment_num header = None
        /\ hdr_timestamp header = None
        /\ hdr_author header = None).
Proof.
  intros Ho. exists (header_of h3).
  split; [rewrite parse_change_header_result; now rewrite Ho|].
  split; [reflexivity|].
  intros Hm. destruct (malformed_heading_returns h3 Hm) as [_ Hr].
  rewrite parse_change_header_result, Ho in Hr.
  assert (header_of h3 = mkHeader None None None (raw_of h3)) as ->
      by congruence.
  repeat split.
Qed.

Lemma header_returns_witness :
  malformed_heading (mkTag "h3" no_attrs [text "edited last week"]) = true
  /\ exists header,
      _parse_change_header (mkTag "h3" no_attrs [text "edited last week"])
      = Ok header
      /\ hdr_raw header
         = get_text " " true (mkTag "h3" no_attrs [text "edited last week"])
      /\ (malformed_heading (mkTag "h3" no_attrs [text "edited last week"])
          = true ->
          hdr_comment_num header = None
          /\ hdr_timestamp header = None
          /\ hdr_author header = None).
Proof.
  split; [reflexivity|].
  apply (header_returns (mkTag "h3" no_attrs [text "edited last week"])).
  reflexivity.
Defined.

(** Headings with nothing to extract exist: an empty one, and one whose
    text has neither a digit nor "by"; a heading with a bold element and a
    text is one as well. *)
Example malformed_headings :
  malformed_heading empty_heading = true
  /\ malformed_heading (mkTag "h3" no_attrs [text "edited last week"]) = true
  /\ malformed_heading
       (mkTag "h3" no_attrs [elem "b" [] [text "Note"]; text " added"]) = true
  /\ _parse_change_header empty_heading = Ok (mkHeader None None None "").
Proof. repeat split. Qed.

(** C8, counterexample.  On a heading whose span of class cnum holds
    "comment:" and 4301 digits the header interpreter raises. *)
Lemma oversized_heading_raises :
  _parse_change_header (numbered_heading 4301) = Raise ValueError.
Proof.
  rewrite parse_change_header_result, numbered_heading_oversized.
  vm_compute. reflexivity.
Qed.
(* ================================================================== *)
(** ** The block locator *)
(* ================================================================== *)

Lemma in_tags_of (l : list PageElement) (t : Tag) :
  In t (tags_of l) <-> In (Element t) l.
Proof.
  unfold tags_of. rewrite in_flat_map. split.
  - intros (e & He & Ht).
    destruct e as [t0|x|x]; [|destruct Ht|destruct Ht].
    destruct Ht as [<-|[]]. assumption.
  - intros H. exists (Element t). split; [assumption | now left].
Qed.

Lemma is_change_block_spec (block : Tag) :
  is_change_block block = true
  <-> (name block = "div" \/ name block = "li")
      /\ In "change" (class_ (attrs block))
      /\ exists i, id (attrs block) = Some i
                   /\ startswith "trac-change" i = true.
Proof.
  unfold is_change_block.
  rewrite !andb_true_iff, orb_true_iff, !String.eqb_eq, existsb_exists.
  split.
  - intros [[Hn (x & Hx & Hc)] Hi]. apply String.eqb_eq in Hc. subst x.
    repeat split; try assumption.
    destruct (id (attrs block)) as [i|]; [eauto | discriminate].
  - intros (Hn & Hc & i & Hi & Hp). rewrite Hi. repeat split; try assumption.
    exists "change". split; [assumption | reflexivity].
Qed.

(** C3, as the code has it.  The locator has one tier: under the
    changelog root it takes the [div] and [li] elements with the class
    token "change" whose id begins with "trac-change", in document order,
    and nothing else; when there is none the result is empty, whatever
    headings the document has. *)
Theorem single_tier_locator (soup : Tag) :
  (forall block,
      In block (change_blocks soup)
      <-> In (Element block) (descendants (changelog_root soup))
          /\ (name block = "div" \/ name block = "li")
          /\ In "change" (class_ (attrs block))
          /\ exists i, id (attrs block) = Some i
                       /\ startswith "trac-change" i = true)
  /\ change_blocks soup
     = filter is_change_block (tags_of (descendants (changelog_root soup)))
  /\ ((forall block, In (Element block) (descendants (changelog_root soup)) ->
                     is_change_block block = false) ->
      change_blocks soup = []).
Proof.
  split; [|split; [reflexivity|]].
  - intros block. unfold change_blocks, find_all.
    now rewrite filter_In, in_tags_of, is_change_block_spec.
  - intros H. unfold change_blocks, find_all.
    destruct (filter is_change_block
                     (tags_of (descendants (changelog_root soup))))
      as [|b l] eqn:E; [reflexivity|].
    assert (In b (filter is_change_block
                         (tags_of (descendants (changelog_root soup)))))
      as Hb by (rewrite E; now left).
    apply filter_In in Hb as [Hb Hc]. apply in_tags_of in Hb.
    rewrite (H b Hb) in Hc. discriminate.
Qed.

(** C3, counterexample.  On the legacy page the only tier of the code
    finds nothing and the result is empty, although the page has a
    "Changed ..." heading whose parent a third tier would return. *)
Lemma legacy_page_not_located :
  change_blocks legacy_page = []
  /\ _parse_changelog legacy_page = Ok []
  /\ heading_parents (changelog_root legacy_page) = [legacy_block]
  /\ (forall tier2,
         spec_three_tier_locate tier2 (changelog_root legacy_page)
         <> change_blocks legacy_page).
Proof.
  split; [reflexivity|]. split; [reflexivity|]. split; [reflexivity|].
  intros tier2. unfold spec_three_tier_locate.
  change (find_all is_change_block (changelog_root legacy_page)) with (@nil Tag).
  change (change_blocks legacy_page) with (@nil Tag).
  destruct (tier2 (changelog_root legacy_page)); cbv iota; [|discriminate].
  change (heading_parents (changelog_root legacy_page)) with [legacy_block].
  discriminate.
Qed.

(* ================================================================== *)
(** ** Documents without a container or without blocks *)
(* ================================================================== *)


(* ================================================================== *)
(** ** Scenario A *)
(* ================================================================== *)

Lemma token_of_texts (li : Tag) (i : nat) (texts : list string) :
  map (get_text "" true) (ems_of li) = texts ->
  token li i = nth_error texts i.
Proof.
  intros <-. unfold token. symmetry. apply nth_error_map.
Qed.

(** C4, as the code has it.  Take a document whose only change block has
    a heading that renders as
    "comment:3 Changed 2024-01-15T10:00:00Z by alice", whose comment-number
    element (the first span of class cnum, or else the first anchor to a
    comment) has the text "comment:3", and which has no anchor with a
    dated title and no trac-author span; a field list with the one item
    "Component changed from libavcodec to libavformat", the name in its
    strong marker and the two values in its em tokens; and no comment
    region.  It parses to exactly one event: comment number 3, that
    timestamp, author alice, one field change (Component, changed,
    libavcodec, libavformat) and an empty comment. *)
Theorem scenario_A (soup block h3 tg ul li : Tag) :
  change_blocks soup = [block] ->
  find is_change_heading block = Some h3 ->
  find is_changes_list block = Some ul ->
  find is_comment_div block = None ->
  raw_of h3 = "comment:3 Changed 2024-01-15T10:00:00Z by alice" ->
  cnum_tag_of h3 = Some tg ->
  get_text "" false tg = "comment:3" ->
  find is_dated_anchor h3 = None ->
  find is_author_span h3 = None ->
  list_items ul = [li] ->
  marker li = Some "Component" ->
  li_text li = "Component changed from libavcodec to libavformat" ->
  map (get_text "" true) (ems_of li) = ["libavcodec"; "libavformat"] ->
  _parse_changelog soup = Ok [scenario_event (Some 3%Z)].
Proof.
  intros Hb Hh Hul Hdiv Hraw Htg Htxt Hdate Hauth Hli Hm Htext Hems.
  assert (oversized h3 = false) as Ho.
  { unfold oversized, number_digits. rewrite Htg, Htxt. reflexivity. }
  assert (header_of h3
          = mkHeader (Some 3%Z) (Some "2024-01-15T10:00:00Z") (Some "alice")
                     (raw_of h3)) as Hhdr.
  { unfold header_of, comment_num_of, timestamp_of, author_of.
    rewrite Htg, Htxt, Hdate, Hauth, Hraw. reflexivity. }
  assert (entry_of li
          = mkFieldChange (Some "Component") (Some "changed")
                          (Some "libavcodec") (Some "libavformat")) as He.
  { assert (List.length (ems_of li) = 2%nat) as Hlen
        by (rewrite <- (length_map (get_text "" true)), Hems; reflexivity).
    unfold entry_of, changed_case, says.
    rewrite Htext, Hlen, Hm, (token_of_texts li 0 _ Hems),
      (token_of_texts li 1 _ Hems).
    reflexivity. }
  rewrite parse_changelog_result. unfold events_of. rewrite Hb.
  cbn [existsb map]. unfold block_oversized. rewrite Hh, Ho. cbn [orb].
  unfold event_of, heading_of, entries_of.
  rewrite Hh, Hul, Hdiv, Hli. cbn [option_map map]. rewrite Hhdr, He.
  reflexivity.
Qed.

Lemma scenario_A_witness :
  _parse_changelog
    (BeautifulSoup
       [changelog_div
          [Element (scenario_block (scenario_heading comment_anchor_3))]])
  = Ok [scenario_event (Some 3%Z)].
Proof. eapply scenario_A; reflexivity. Defined.

(** The same holds with the token in a span of class cnum. *)
Example scenario_A_span :
  _parse_changelog
    (BeautifulSoup
       [changelog_div
          [Element (scenario_block (scenario_heading cnum_span_3))]])
  = Ok [scenario_event (Some 3%Z)].
Proof. reflexivity. Qed.

(** C4, counterexample.  With the same heading text held by one text
    node, no span and no anchor, the event has no comment number. *)
Lemma plain_heading_has_no_number :
  raw_of plain_heading = "comment:3 Changed 2024-01-15T10:00:00Z by alice"
  /\ change_blocks plain_scenario_page = [scenario_block plain_heading]
  /\ _parse_changelog plain_scenario_page = Ok [scenario_event None].
Proof. repeat split. Qed.
(* ================================================================== *)
(** ** Items with a marker, no token and no verb *)
(* ================================================================== *)

(** C10, as the code has it.  A list item whose marker has a name that is
    not empty, with no value token and none of the three verb phrases,
    gives a field change with that name and no action, old value or new
    value, and the field list returns it. *)
Theorem bare_item_kept (ul li : Tag) (nm : string) :
  In li (list_items ul) ->
  marker li = Some nm -> nm <> "" ->
  ems_of li = [] ->
  says "changed from" li = false ->
  says "set to" li = false ->
  says "deleted" li = false ->
  field_entry li = Ok (mkFieldChange (Some nm) None None None)
  /\ exists entries,
      _parse_field_changes ul = Ok entries
      /\ In (mkFieldChange (Some nm) None None None) entries.
Proof.
  intros Hin Hm Hnm Hems Hc Hs Hd.
  assert (entry_of li = mkFieldChange (Some nm) None None None) as He.
  { unfold entry_of, changed_case, set_case, deleted_case.
    rewrite Hc, Hs, Hd, Hems, Hm. reflexivity. }
  split; [rewrite field_entry_ok; now f_equal|].
  exists (entries_of ul). split; [apply parse_field_changes_ok|].
  unfold entries_of. apply filter_In. split.
  - rewrite <- He. now apply in_map.
  - apply kept_entry_spec. exists nm. split; [reflexivity | assumption].
Qed.

Lemma bare_item_kept_witness :
  field_entry bare_item = Ok (mkFieldChange (Some "Keywords") None None None)
  /\ exists entries,
      _parse_field_changes bare_list = Ok entries
      /\ In (mkFieldChange (Some "Keywords") None None None) entries.
Proof.
  apply (bare_item_kept bare_list bare_item "Keywords");
    try reflexivity; [now left | discriminate].
Defined.

(** C10, counterexample.  An item whose marker is there but empty, with no
    value token and no verb phrase, gives no field change. *)
Lemma empty_marker_not_emitted :
  find (name_is "strong") empty_marker_item <> None
  /\ ems_of empty_marker_item = []
  /\ says "changed from" empty_marker_item = false
  /\ says "set to" empty_marker_item = false
  /\ says "deleted" empty_marker_item = false
  /\ list_items empty_marker_list = [empty_marker_item]
  /\ _parse_field_changes empty_marker_list = Ok [].
Proof. repeat split. discriminate. Qed.

(* ================================================================== *)
(** ** More on the header fields *)
(* ================================================================== *)

Lemma int_acc_nonneg (s : string) :
  forall acc, (0 <= acc)%Z -> (0 <= int_acc acc s)%Z.
Proof.
  induction s as [|c s IH]; intros acc H; cbn [int_acc]; [assumption|].
  apply IH. unfold digit_value. lia.
Qed.

Lemma no_comment_token (s : string) :
  contains "comment:" s = false -> re_search re_comment_num s = None.
Proof.
  unfold re_search. generalize (@None ascii).
  induction s as [|c s IH]; intros prev H.
  - reflexivity.
  - apply contains_tail in H as [Hs Hc].
    cbn [search_from]. unfold re_comment_num at 1. cbn [rmatch].
    rewrite Hs. cbn [flat_map]. now apply IH.
Qed.

Lemma plus_not_space (s p r : string) :
  In (p, r) (plus_matches NotSpace s) ->
  truthy_str p = true /\ no_space p = true.
Proof.
  revert p r. induction s as [|c s IH]; intros p r; simpl; [tauto|].
  destruct (is_space c) eqn:Ec; simpl; [intros []|].
  rewrite in_app_iff, in_map_iff.
  intros [((p' & r') & [= <- <-] & Hin) | [[= <- <-] | []]]; simpl.
  - destruct (IH _ _ Hin) as [_ Hd]. now rewrite Ec, Hd.
  - now rewrite Ec.
Qed.

Lemma by_author_group (prev : option ascii) (s : string) (m : Match) :
  In m (rmatch re_by_author prev s) ->
  exists g, group1 m = Some g /\ truthy_str g = true /\ no_space g = true.
Proof.
  unfold re_by_author. cbn [rmatch].
  rewrite in_flat_map. intros (m1 & _ & H).
  rewrite in_map_iff in H. destruct H as (m2 & <- & H).
  rewrite in_flat_map in H. destruct H as (m3 & _ & H).
  rewrite in_map_iff in H. destruct H as (m4 & <- & H).
  rewrite in_flat_map in H. destruct H as (m5 & _ & H).
  rewrite in_map_iff in H. destruct H as (m6 & <- & H).
  rewrite !map_map, in_map_iff in H. destruct H as ((p & r) & <- & H).
  cbn. exists p. split; [reflexivity|]. eapply plus_not_space; eassumption.
Qed.

Lemma timestamp_group (prev : option ascii) (s : string) (m : Match) :
  In m (rmatch re_timestamp prev s) -> group1 m = Some (consumed m).
Proof.
  unfold re_timestamp. cbn [rmatch]. rewrite in_map_iff.
  intros (m1 & <- & _). reflexivity.
Qed.

Lemma strip_trimmed (s : string) : trimmed (strip s).
Proof.
  destruct (strip s) eqn:E; [reflexivity|]. rewrite <- E.
  apply solid_trimmed, strip_solid. rewrite E. discriminate.
Qed.

(** X1. The comment number of a heading, when the header interpreter
    returns one, is not negative. *)
Theorem comment_number_not_negative (h3 : Tag) (header : Header) (n : Z) :
  _parse_change_header h3 = Ok header ->
  hdr_comment_num header = Some n ->
  (0 <= n)%Z.
Proof.
  intros Hp. apply parse_change_header_returned in Hp as [-> _].
  unfold header_of, comment_num_of. cbn [hdr_comment_num].
  destruct (cnum_tag_of h3) as [tg|]; [|discriminate].
  destruct (re_search _ _) as [m|]; [|discriminate].
  destruct (group1 m) as [d|]; [|discriminate].
  intros [= <-]. now apply int_acc_nonneg.
Qed.

Lemma comment_number_not_negative_witness :
  _parse_change_header (scenario_heading comment_anchor_3)
  = Ok (mkHeader (Some 3%Z) (Some "2024-01-15T10:00:00Z") (Some "alice")
                 "comment:3 Changed 2024-01-15T10:00:00Z by alice")
  /\ (0 <= 3)%Z.
Proof.
  split; [reflexivity|].
  apply (comment_number_not_negative
           (scenario_heading comment_anchor_3)
           (mkHeader (Some 3%Z) (Some "2024-01-15T10:00:00Z") (Some "alice")
                     "comment:3 Changed 2024-01-15T10:00:00Z by alice"));
    reflexivity.
Defined.

(** X2. A span of class cnum whose text has no "comment:" hides the
    comment anchor: the heading gets no comment number, whatever anchors
    it has. *)
Theorem cnum_span_hides_anchor (h3 sp : Tag) :
  find is_cnum_span h3 = Some sp ->
  contains "comment:" (get_text "" false sp) = false ->
  exists header,
    _parse_change_header h3 = Ok header /\ hdr_comment_num header = None.
Proof.
  intros Hsp Hc. exists (header_of h3).
  assert (cnum_tag_of h3 = Some sp) as Htg
      by (unfold cnum_tag_of; now rewrite Hsp).
  split.
  - rewrite parse_change_header_result. unfold oversized, number_digits.
    now rewrite Htg, (no_comment_token _ Hc).
  - unfold header_of, comment_num_of. cbn [hdr_comment_num].
    now rewrite Htg, (no_comment_token _ Hc).
Qed.

Lemma cnum_span_hides_anchor_witness :
  find is_comment_anchor shadowed_heading <> None
  /\ exists header,
      _parse_change_header shadowed_heading = Ok header
      /\ hdr_comment_num header = None.
Proof.
  split; [discriminate|].
  apply (cnum_span_hides_anchor shadowed_heading
                                (mkTag "span" (mkAttrs ["cnum"] None None None) []));
    reflexivity.
Defined.

(** X3. Without a trac-author span, the author of a heading, when the
    header interpreter returns one, is a piece of the heading's rendered
    text that is not empty and holds no white space. *)
Theorem author_from_text (h3 : Tag) (header : Header) :
  find is_author_span h3 = None ->
  _parse_change_header h3 = Ok header ->
  forall a, hdr_author header = Some a ->
            a <> "" /\ no_space a = true /\ occurs_in a (raw_of h3).
Proof.
  intros Hs Hp. apply parse_change_header_returned in Hp as [-> _].
  unfold header_of, author_of. cbn [hdr_author]. rewrite Hs.
  intros a. destruct (re_search re_by_author (raw_of h3)) as [m|] eqn:E;
    [|discriminate].
  intros Hg. pose proof (search_group_occurs _ _ _ _ E Hg) as Hocc.
  apply search_from_in in E as (p & s' & Hin).
  apply by_author_group in Hin as (g & Hg' & Ht & Hn).
  rewrite Hg in Hg'. injection Hg' as ->.
  repeat split; try assumption. intros ->. discriminate.
Qed.

Lemma author_from_text_witness :
  "alice" <> "" /\ no_space "alice" = true
  /\ occurs_in "alice" (raw_of plain_heading).
Proof.
  apply (author_from_text
           plain_heading
           (mkHeader None (Some "2024-01-15T10:00:00Z") (Some "alice")
                     "comment:3 Changed 2024-01-15T10:00:00Z by alice"));
    reflexivity.
Defined.

(** X4. Without a dated anchor, the timestamp of a heading, when the
    header interpreter returns one, is a piece of the heading's rendered
    text of 16 to 25 characters. *)
Theorem timestamp_from_text (h3 : Tag) (header : Header) :
  find is_dated_anchor h3 = None ->
  _parse_change_header h3 = Ok header ->
  forall t, hdr_timestamp header = Some t ->
            occurs_in t (raw_of h3)
            /\ (16 <= String.length t <= 25)%nat.
Proof.
  intros Hs Hp. apply parse_change_header_returned in Hp as [-> _].
  unfold header_of, timestamp_of. cbn [hdr_timestamp]. rewrite Hs.
  intros t. destruct (re_search re_timestamp (raw_of h3)) as [m|] eqn:E;
    [|discriminate].
  intros Hg. split; [eapply search_group_occurs; eassumption|].
  apply search_from_in in E as (p & s' & Hin).
  pose proof (timestamp_group _ _ _ Hin) as Hc.
  rewrite Hg in Hc. injection Hc as ->.
  destruct (rmatch_sound _ _ _ _ Hin) as (_ & _ & Hmin & Hmax).
  specialize (Hmax 25%nat eq_refl). change (min_len re_timestamp) with 16%nat in Hmin.
  lia.
Qed.

Lemma timestamp_from_text_witness :
  occurs_in "2024-01-15T10:00:00Z" (raw_of plain_heading)
  /\ (16 <= String.length "2024-01-15T10:00:00Z" <= 25)%nat.
Proof.
  apply (timestamp_from_text
           plain_heading
           (mkHeader None (Some "2024-01-15T10:00:00Z") (Some "alice")
                     "comment:3 Changed 2024-01-15T10:00:00Z by alice"));
    reflexivity.
Defined.

(** X5. When the heading has an anchor whose title holds a date and the
    header interpreter returns, the timestamp is that whole title with
    the white space at its ends removed, and the heading's text is not
    consulted. *)
Theorem timestamp_from_title (h3 tg : Tag) (header : Header) :
  find is_dated_anchor h3 = Some tg ->
  _parse_change_header h3 = Ok header ->
  exists v,
    title (attrs tg) = Some v
    /\ hdr_timestamp header = Some (strip v)
    /\ trimmed (strip v).
Proof.
  intros H Hp. apply parse_change_header_returned in Hp as [-> _].
  destruct (dated_anchor_title _ _ H) as (v & Hv & _).
  exists v. split; [assumption|]. split; [|apply strip_trimmed].
  unfold header_of, timestamp_of. cbn [hdr_timestamp]. now rewrite H, Hv.
Qed.

Lemma timestamp_from_title_witness :
  exists v,
    title (attrs (mkTag "a"
                        (mkAttrs [] None
                                 (Some " 2024-01-15T10:00:00+01:00 in Timeline ")
                                 None)
                        [text "2 years ago"])) = Some v
    /\ hdr_timestamp
         (mkHeader None (Some "2024-01-15T10:00:00+01:00 in Timeline")
                   (Some "alice") "Changed 2 years ago by alice")
       = Some (strip v)
    /\ trimmed (strip v).
Proof. apply (timestamp_from_title titled_heading); reflexivity. Defined.
(* ================================================================== *)
(** ** More on field changes, blocks and documents *)
(* ================================================================== *)

(** X6. Every field change returned for a field list has one of five
    shapes: [changed] with both values, [set] with a new value only,
    [deleted] without a new value, [modified] with a new value, or no
    action and no value at all. *)
Theorem field_change_shapes (ul : Tag) :
  exists entries,
    _parse_field_changes ul = Ok entries
    /\ forall e,
        In e entries ->
        (action e = Some "changed"
         /\ old_value e <> None /\ new_value e <> None)
        \/ (action e = Some "set"
            /\ old_value e = None /\ new_value e <> None)
        \/ (action e = Some "deleted" /\ new_value e = None)
        \/ (action e = Some "modified" /\ new_value e <> None)
        \/ (action e = None /\ old_value e = None /\ new_value e = None).
Proof.
  exists (entries_of ul). split; [apply parse_field_changes_ok|].
  intros e He. unfold entries_of in He.
  apply filter_In in He as [He _]. apply in_map_iff in He as (li & <- & _).
  assert (forall i, (i < List.length (ems_of li))%nat -> token li i <> None)
    as Htok.
  { intros i Hi. destruct (em_text_token li i Hi) as (v & -> & _).
    discriminate. }
  assert ((1 <= List.length (ems_of li))%nat -> last_token li <> None)
    as Hlast.
  { intros Hi. destruct (em_text_last li Hi) as (v & -> & _). discriminate. }
  unfold entry_of, changed_case, set_case, deleted_case.
  destruct (says "changed from" li), (says "set to" li), (says "deleted" li),
           (2 <=? List.length (ems_of li))%nat eqn:E2,
           (1 <=? List.length (ems_of li))%nat eqn:E1;
    leb_facts; try (exfalso; lia);
    cbn [andb action old_value new_value];
    first
      [ left; repeat split; try (apply Htok; lia); fail
      | right; left; repeat split; try (apply Htok; lia); fail
      | right; right; left; repeat split; fail
      | right; right; right; left; repeat split; try (apply Hlast; lia); fail
      | right; right; right; right; repeat split; fail ].
Qed.

Lemma descendants_app (n : string) (a : Attrs) (c1 c2 : list PageElement) :
  descendants (mkTag n a (c1 ++ c2)%list)
  = (descendants (mkTag n a c1) ++ descendants (mkTag n a c2))%list.
Proof.
  induction c1 as [|e c1 IH]; [reflexivity|].
  cbn [descendants app] in *. rewrite IH. now rewrite <- app_assoc.
Qed.

Lemma find_all_app (f : Tag -> bool) (n : string) (a : Attrs)
      (c1 c2 : list PageElement) :
  find_all f (mkTag n a (c1 ++ c2)%list)
  = (find_all f (mkTag n a c1) ++ find_all f (mkTag n a c2))%list.
Proof.
  unfold find_all. now rewrite descendants_app, tags_of_app, filter_app.
Qed.

Lemma find_app_none (f : Tag -> bool) (n : string) (a : Attrs)
      (c1 c2 : list PageElement) :
  find f (mkTag n a (c1 ++ c2)%list) = None ->
  find f (mkTag n a c1) = None /\ find f (mkTag n a c2) = None.
Proof.
  unfold find. rewrite find_all_app.
  destruct (find_all f (mkTag n a c1)); [|discriminate].
  simpl. tauto.
Qed.

(** X7. When the document has an element with id "changelog", only the
    change blocks below the first such element are looked at; blocks
    elsewhere in the document give no event. *)
Theorem container_scopes_blocks (soup container : Tag) :
  find (has_id "changelog") soup = Some container ->
  id (attrs container) = Some "changelog"
  /\ forall block,
      In block (change_blocks soup) ->
      In (Element block) (descendants container).
Proof.
  intros H. split.
  - apply find_some in H as [H _]. unfold has_id, matches_str in H.
    destruct (id (attrs container)) as [i|]; [|discriminate].
    apply String.eqb_eq in H. now subst.
  - intros block. unfold change_blocks, changelog_root. rewrite H.
    unfold find_all. rewrite filter_In, in_tags_of. tauto.
Qed.

Lemma container_scopes_blocks_witness :
  (id (attrs (mkTag "div" (mkAttrs [] (Some "changelog") None None)
                    [Element comment_only_block])) = Some "changelog"
   /\ forall block,
       In block (change_blocks page_with_stray_block) ->
       In (Element block)
          (descendants (mkTag "div" (mkAttrs [] (Some "changelog") None None)
                              [Element comment_only_block])))
  /\ change_blocks page_with_stray_block = [comment_only_block]
  /\ List.length (find_all is_change_block page_with_stray_block) = 2%nat.
Proof.
  split; [|split; reflexivity].
  apply (container_scopes_blocks page_with_stray_block). reflexivity.
Defined.

Lemma lstrip_blank (s : string) : lstrip s = "" <-> blank s = true.
Proof.
  induction s as [|c s IH]; simpl; [tauto|].
  destruct (is_space c); simpl; [exact IH|]. split; discriminate.
Qed.

Lemma strip_blank (s : string) : strip s = "" <-> blank s = true.
Proof.
  rewrite <- lstrip_blank. unfold strip. split; [|now intros ->].
  pose proof (lstrip_head s) as Hh.
  destruct (lstrip s) as [|c r]; [reflexivity|].
  simpl. destruct (rstrip r); [rewrite Hh|]; discriminate.
Qed.

Lemma fragments_blank (region : Tag) :
  fragments region = []
  <-> forall s, In s (text_nodes region) -> blank s = true.
Proof.
  unfold fragments, text_nodes, _all_strings.
  induction (descendants region) as [|e l IH]; simpl; [tauto|].
  destruct e as [t|x|x]; simpl; try exact IH.
  destruct (truthy_str (strip x)) eqn:E; simpl.
  - split; [discriminate|]. intros H.
    specialize (H x (or_introl eq_refl)). apply strip_blank in H.
    rewrite H in E. discriminate.
  - rewrite IH. split.
    + intros H s [<-|Hs]; [|now apply H].
      apply strip_blank. destruct (strip x); [reflexivity | discriminate].
    + intros H s Hs. apply H. now right.
Qed.

Lemma join_empty (sep : string) (l : list string) :
  Forall solid l -> join sep l = "" -> l = [].
Proof.
  intros Hall H. destruct l as [|x l]; [reflexivity|].
  assert (solid (join sep (x :: l))) as Hs
      by (apply join_solid; [assumption | discriminate]).
  rewrite H in Hs. destruct Hs.
Qed.

(** X8. The comment of an event returned for a block that has a comment
    region is empty exactly when every text node of the region is blank;
    such an event, if the block has no field list either, is not
    retained. *)
Theorem blank_comment_region (block region : Tag) (event : Event) :
  find is_comment_div block = Some region ->
  block_event block = Ok event ->
  (comment event = ""
   <-> forall s, In s (text_nodes region) -> blank s = true)
  /\ (find is_changes_list block = None ->
      (forall s, In s (text_nodes region) -> blank s = true) ->
      retained event = false).
Proof.
  intros H Hev. apply block_event_returned in Hev as [-> _].
  assert (comment (event_of block) = ""
          <-> forall s, In s (text_nodes region) -> blank s = true) as Hc.
  { unfold event_of. cbn [comment]. rewrite H, <- fragments_blank. split.
    - apply join_empty, fragments_solid.
    - now intros ->. }
  split; [exact Hc|]. intros Hul Hb.
  unfold retained. apply Hc in Hb. rewrite Hb.
  unfold event_of. cbn [field_changes]. now rewrite Hul.
Qed.

Lemma blank_comment_region_witness :
  (comment (mkEvent None None None [] ("Looks good" ++ newline ++ "to me."))
   = ""
   <-> forall s, In s (text_nodes comment_region) -> blank s = true)
  /\ (find is_changes_list comment_only_block = None ->
      (forall s, In s (text_nodes comment_region) -> blank s = true) ->
      retained (mkEvent None None None []
                        ("Looks good" ++ newline ++ "to me.")) = false).
Proof.
  apply (blank_comment_region comment_only_block comment_region);
    reflexivity.
Defined.

(** X9. For a document without a "changelog" element, when parsing
    each of two sequences of top-level nodes returns, parsing the two
    together returns the events of the first followed by the events of
    the second. *)
Theorem events_of_parts (part1 part2 : list PageElement)
        (events1 events2 : list Event) :
  find (has_id "changelog") (BeautifulSoup (part1 ++ part2)%list) = None ->
  _parse_changelog (BeautifulSoup part1) = Ok events1 ->
  _parse_changelog (BeautifulSoup part2) = Ok events2 ->
  _parse_changelog (BeautifulSoup (part1 ++ part2)%list)
  = Ok (events1 ++ events2)%list.
Proof.
  intros H. pose proof H as H0.
  unfold BeautifulSoup in H0. apply find_app_none in H0 as [H1 H2].
  rewrite !parse_changelog_result.
  assert (change_blocks (BeautifulSoup (part1 ++ part2)%list)
          = (change_blocks (BeautifulSoup part1)
             ++ change_blocks (BeautifulSoup part2))%list) as Hb.
  { unfold change_blocks, changelog_root. rewrite H.
    unfold BeautifulSoup in *. rewrite H1, H2. apply find_all_app. }
  unfold events_of. rewrite Hb, existsb_app, map_app, filter_app.
  destruct (existsb block_oversized (change_blocks (BeautifulSoup part1)));
    [discriminate|].
  destruct (existsb block_oversized (change_blocks (BeautifulSoup part2)));
    [discriminate|].
  now intros [= <-] [= <-].
Qed.

Lemma events_of_parts_witness :
  _parse_changelog
    (BeautifulSoup ([Element comment_only_block]
                    ++ [Element (scenario_block plain_heading)])%list)
  = Ok ([mkEvent None None None [] ("Looks good" ++ newline ++ "to me.")]
        ++ [scenario_event None])%list.
Proof.
  apply (events_of_parts [Element comment_only_block]
                         [Element (scenario_block plain_heading)]);
    reflexivity.
Defined.
(* ================================================================== *)
(** ** The stored base address *)
(* ================================================================== *)

Lemma rstrip_slashes_split (s : string) :
  exists k, s = rstrip_chars "/" s ++ slashes k.
Proof.
  induction s as [|c s (k & IH)]; [now exists 0%nat|].
  cbn [rstrip_chars]. destruct (rstrip_chars "/" s) as [|c' r'] eqn:E.
  - simpl in IH. cbn [mem_char]. rewrite orb_false_r.
    destruct (Ascii.eqb c "/") eqn:Ec.
    + apply Ascii.eqb_eq in Ec. subst c. exists (S k). simpl. now f_equal.
    + exists k. simpl. now f_equal.
  - exists k. simpl. f_equal. exact IH.
Qed.

Lemma rstrip_slashes_last (s : string) :
  last_char (rstrip_chars "/" s) None <> Some "/"%char.
Proof.
  induction s as [|c s IH]; [discriminate|].
  cbn [rstrip_chars]. destruct (rstrip_chars "/" s) as [|c' r'] eqn:E.
  - cbn [mem_char]. rewrite orb_false_r.
    destruct (Ascii.eqb c "/") eqn:Ec; [discriminate|].
    simpl. intros [= ->]. rewrite Ascii.eqb_refl in Ec. discriminate.
  - simpl in *. exact IH.
Qed.

Lemma rstrip_slashes_fixed (s : string) :
  last_char s None <> Some "/"%char -> rstrip_chars "/" s = s.
Proof.
  induction s as [|c s IH]; intros H; [reflexivity|].
  cbn [rstrip_chars]. destruct s as [|c' s'].
  - simpl in *. destruct (Ascii.eqb c "/") eqn:Ec; [|reflexivity].
    apply Ascii.eqb_eq in Ec. subst c. now contradiction H.
  - rewrite IH; [reflexivity|]. simpl in *. exact H.
Qed.

(** X10. The base address stored by the constructor is the given address
    without its trailing slashes: only slashes are removed, the result
    does not end with a slash, and storing it again changes nothing.  So
    the ticket address has one slash between base and "ticket". *)
Theorem base_url_without_trailing_slash (base_url ticket_id : string) :
  (exists k, base_url = init_base_url base_url ++ slashes k)
  /\ last_char (init_base_url base_url) None <> Some "/"%char
  /\ init_base_url (init_base_url base_url) = init_base_url base_url
  /\ exists k,
      ticket_url base_url ticket_id
      = init_base_url base_url ++ slashes k ++ "/ticket/" ++ ticket_id
      /\ ticket_url (init_base_url base_url) ticket_id
         = init_base_url base_url ++ "/ticket/" ++ ticket_id.
Proof.
  unfold init_base_url, ticket_url.
  destruct (rstrip_slashes_split base_url) as (k & Hk).
  split; [eauto|]. split; [apply rstrip_slashes_last|].
  split; [apply rstrip_slashes_fixed, rstrip_slashes_last|].
  exists k. split; [|reflexivity].
  rewrite Hk at 1. now rewrite append_assoc.
Qed.

(* ================================================================== *)
(** ** The Markdown rendering *)
(* ================================================================== *)

Lemma split_not_nil (sep : ascii) (s : string) : split sep s <> [].
Proof.
  destruct s as [|c s]; simpl; [discriminate|].
  destruct (Ascii.eqb c sep); [discriminate|].
  destruct (split sep s); discriminate.
Qed.

Lemma join_cons (sep x : string) (l : list string) :
  l <> [] -> join sep (x :: l) = x ++ sep ++ join sep l.
Proof. destruct l; [congruence | reflexivity]. Qed.

(** Splitting at line feeds and joining with line feeds gives the text
    back. *)
Lemma join_split (s : string) : join newline (split line_feed s) = s.
Proof.
  induction s as [|c s IH]; [reflexivity|].
  cbn [split]. destruct (Ascii.eqb c line_feed) eqn:Ec.
  - apply Ascii.eqb_eq in Ec. subst c.
    rewrite join_cons by apply split_not_nil. now rewrite IH.
  - pose proof (split_not_nil line_feed s) as Hn.
    destruct (split line_feed s) as [|x l]; [congruence|].
    destruct l as [|y l]; simpl in *; now rewrite IH.
Qed.

Lemma comment_line_inj (p q : string) :
  comment_line p = comment_line q -> p = q.
Proof.
  unfold comment_line.
  destruct p as [|a p], q as [|b q]; simpl; intros H;
    [reflexivity | discriminate | discriminate
    | injection H as -> ->; reflexivity].
Qed.

Lemma map_comment_line_inj (l1 l2 : list string) :
  map comment_line l1 = map comment_line l2 -> l1 = l2.
Proof.
  revert l2. induction l1 as [|p l1 IH]; intros [|q l2]; simpl;
    try discriminate; [reflexivity|].
  intros [= H1 H2]. f_equal; [now apply comment_line_inj | now apply IH].
Qed.

(** X11. In the rendering of a comment every line starts with the quote
    mark, there is one line per piece between line feeds, and two
    comments with the same lines are the same comment: the quoted block
    loses nothing. *)
Theorem comment_block_keeps_text (c : string) :
  (forall l, In l (comment_lines c) -> startswith ">" l = true)
  /\ List.length (comment_lines c) = List.length (split line_feed c)
  /\ join newline (split line_feed c) = c
  /\ forall c', comment_lines c = comment_lines c' -> c = c'.
Proof.
  unfold comment_lines. split; [|split; [|split]].
  - intros l Hl. apply in_map_iff in Hl as (p & <- & _).
    unfold comment_line. destruct p; reflexivity.
  - apply length_map.
  - apply join_split.
  - intros c' H. apply map_comment_line_inj in H.
    rewrite <- (join_split c), <- (join_split c'). now rewrite H.
Qed.

(** X12. As the parser returns them, a [deleted] field change without an
    old value is rendered with the word None in the place of the value,
    and a field change without action is rendered as its name followed by
    None. *)
Theorem absent_values_render_as_None (arrow : string) (ul : Tag) :
  exists entries,
    _parse_field_changes ul = Ok entries
    /\ forall e,
        In e entries ->
        exists nm,
          field e = Some nm
          /\ (action e = Some "deleted" -> old_value e = None ->
              field_change_line arrow e
              = "- **" ++ nm ++ "**: deleted (was `None`)")
          /\ (action e = None ->
              field_change_line arrow e = "- **" ++ nm ++ "**: None").
Proof.
  exists (entries_of ul). split; [apply parse_field_changes_ok|].
  intros e He. unfold entries_of in He.
  apply filter_In in He as [He Hk]. apply in_map_iff in He as (li & <- & _).
  apply kept_entry_spec in Hk as (nm & Hf & _). exists nm.
  split; [assumption|].
  assert ((1 <= List.length (ems_of li))%nat -> last_token li <> None)
    as Hlast.
  { intros Hi. destruct (em_text_last li Hi) as (v & -> & _). discriminate. }
  revert Hf. unfold entry_of, changed_case, set_case, deleted_case.
  destruct (says "changed from" li), (says "set to" li), (says "deleted" li),
           (2 <=? List.length (ems_of li))%nat,
           (1 <=? List.length (ems_of li))%nat;
    cbn [andb field action old_value new_value]; intros ->;
    split; intros H; try discriminate;
    try (intros ->); unfold field_change_line;
    cbn [field action old_value new_value matches_str String.eqb];
    reflexivity.
Qed.

Lemma fold_push {A B : Type} (f : A -> B) (l : list A) (acc : list B) :
  fold_left (fun ls x => push ls (f x)) l acc = (acc ++ map f l)%list.
Proof.
  revert acc. induction l as [|x l IH]; intros acc; simpl.
  - now rewrite app_nil_r.
  - rewrite IH. unfold push. now rewrite <- app_assoc.
Qed.

Lemma field_change_line_dash (arrow : string) (fc : FieldChange) :
  startswith "- **" (field_change_line arrow fc) = true.
Proof.
  unfold field_change_line.
  destruct (matches_str (action fc) "changed"),
    (matches_str (action fc) "set"), (matches_str (action fc) "deleted");
    reflexivity.
Qed.

Lemma markdown_step_appends (em_dash arrow : string) (lines : list string)
      (ev : Event) :
  markdown_step em_dash arrow lines ev
  = (lines ++ markdown_step em_dash arrow [] ev)%list.
Proof.
  unfold markdown_step. rewrite !fold_push. unfold push.
  destruct (truthy_list (field_changes ev)), (truthy_str (comment ev));
    cbn [app]; repeat rewrite <- app_assoc; reflexivity.
Qed.

Lemma markdown_fold (em_dash arrow : string) (events : list Event)
      (lines : list string) :
  fold_left (markdown_step em_dash arrow) events lines
  = (lines ++ flat_map (markdown_step em_dash arrow []) events)%list.
Proof.
  revert lines. induction events as [|ev events IH]; intros lines; simpl.
  - now rewrite app_nil_r.
  - rewrite IH, markdown_step_appends. now rewrite <- app_assoc.
Qed.

(** X13. The rendering only appends: the lines are the eight lines of the
    head followed by one section per event, in order.  A section starts
    with the heading line and an empty line and ends with the rule and an
    empty line; between them it has a "Field changes" block exactly when
    the event has field changes and a "Comment" block exactly when its
    comment is not empty. *)
Theorem markdown_sections (em_dash arrow base_url now ticket_id : string)
        (events : list Event) :
  markdown_lines em_dash arrow base_url now ticket_id events
  = (markdown_head em_dash base_url now ticket_id events
     ++ flat_map (markdown_step em_dash arrow []) events)%list
  /\ List.length (markdown_head em_dash base_url now ticket_id events) = 8%nat
  /\ forall ev,
      exists body,
        markdown_step em_dash arrow [] ev
        = (heading_line em_dash ev :: "" :: body ++ ["---"; ""])%list
        /\ (In "**Field changes:**" body <-> field_changes ev <> [])
        /\ (In "**Comment:**" body <-> comment ev <> "").
Proof.
  split; [apply markdown_fold|]. split; [reflexivity|].
  intros ev.
  exists ((if truthy_list (field_changes ev)
           then "**Field changes:**" :: ""
                :: map (field_change_line arrow) (field_changes ev) ++ [""]
           else [])
          ++ (if truthy_str (comment ev)
              then "**Comment:**" :: ""
                   :: map comment_line (split line_feed (comment ev)) ++ [""]
              else []))%list.
  assert (forall l, In l (map (field_change_line arrow) (field_changes ev)) ->
                    startswith "- **" l = true) as Hfc.
  { intros l Hl. apply in_map_iff in Hl as (fc & <- & _).
    apply field_change_line_dash. }
  assert (forall l, In l (map comment_line (split line_feed (comment ev))) ->
                    startswith ">" l = true) as Hcl.
  { intros l Hl. apply in_map_iff in Hl as (p & <- & _).
    unfold comment_line. destruct p; reflexivity. }
  split; [|split].
  - unfold markdown_step. rewrite !fold_push. unfold push.
    destruct (truthy_list (field_changes ev)), (truthy_str (comment ev));
      cbn [app]; repeat (rewrite <- app_assoc; cbn [app]); reflexivity.
  - rewrite in_app_iff.
    destruct (field_changes ev) as [|fc fcs] eqn:Ef; cbn [truthy_list].
    + split; [|congruence]. intros [[]|H].
      destruct (truthy_str (comment ev)); [|destruct H].
      destruct H as [H|[H|H]]; try discriminate.
      apply in_app_iff in H as [H|[H|[]]]; [|discriminate].
      apply Hcl in H. discriminate.
    + split; [discriminate|]. intros _. left. now left.
  - rewrite in_app_iff.
    destruct (comment ev) as [|c s] eqn:Ec; cbn [truthy_str].
    + split; [|congruence]. intros [H|[]].
      destruct (truthy_list (field_changes ev)); [|destruct H].
      destruct H as [H|[H|H]]; try discriminate.
      apply in_app_iff in H as [H|[H|[]]]; [|discriminate].
      apply Hfc in H. discriminate.
    + split; [discriminate|]. intros _. right. now left.
Qed.

(* ================================================================== *)
(** ** The summary table *)
(* ================================================================== *)

Lemma events_retained (soup : Tag) (ev : Event) :
  In ev (events_of soup) ->
  retained ev = true
  /\ Forall (fun e => kept_entry e = true) (field_changes ev).
Proof.
  unfold events_of. rewrite filter_In, in_map_iff.
  intros [(block & <- & _) Hr]. split; [assumption|].
  unfold event_of. cbn [field_changes].
  destruct (find is_changes_list block) as [ul|]; [|constructor].
  unfold entries_of. apply Forall_forall. intros e He.
  now apply filter_In in He.
Qed.

Lemma totals_bound (events : list Event) :
  Forall (fun ev => retained ev = true) events ->
  (total_comments events <= List.length events)%nat
  /\ (List.length events
      <= total_field_changes events + total_comments events)%nat.
Proof.
  unfold total_comments, total_field_changes.
  induction 1 as [|ev events Hr _ (IH1 & IH2)]; simpl; [lia|].
  unfold retained in Hr.
  destruct (field_changes ev) as [|fc fcs], (truthy_str (comment ev));
    simpl in *; try discriminate; lia.
Qed.

(** X14. For the events returned for any document, the totals of the
    summary fit together: the events with a comment are no more than the
    events, and the events are no more than the field changes and the
    events with a comment taken together. *)
Theorem summary_totals_consistent (soup : Tag) (events : list Event) :
  _parse_changelog soup = Ok events ->
  (total_comments events <= List.length events)%nat
  /\ (List.length events
      <= total_field_changes events + total_comments events)%nat.
Proof.
  intros Hp. apply parse_changelog_returned in Hp as [-> _].
  apply totals_bound, Forall_forall. intros ev Hev.
  now apply events_retained in Hev.
Qed.

Lemma summary_totals_consistent_witness :
  (total_comments [scenario_event None]
   <= List.length [scenario_event None])%nat
  /\ (List.length [scenario_event None]
      <= total_field_changes [scenario_event None]
         + total_comments [scenario_event None])%nat.
Proof.
  apply (summary_totals_consistent plain_scenario_page). reflexivity.
Defined.

Lemma field_names_ok (fcs : list FieldChange) :
  Forall (fun e => kept_entry e = true) fcs ->
  exists names, field_names fcs = Ok names.
Proof.
  induction 1 as [|fc fcs Hk _ (names & IH)]; simpl; [eauto|].
  apply kept_entry_spec in Hk as (nm & -> & _). rewrite IH. simpl. eauto.
Qed.

Lemma length_take (n : nat) (s : string) :
  (String.length (take n s) <= n)%nat.
Proof.
  revert s. induction n as [|n IH]; intros [|c s]; simpl; try lia.
  specialize (IH s). lia.
Qed.

Lemma length_spaces (n : nat) : String.length (spaces n) = n.
Proof. induction n; simpl; congruence. Qed.

Lemma length_ljust (n : nat) (s : string) :
  String.length (ljust n s) = Nat.max n (String.length s).
Proof. unfold ljust. rewrite length_append, length_spaces. lia. Qed.

(** X15. For every event returned for any document the row of the
    summary table is built without raising; its author cell is 18
    characters wide, its field cell 30, its number cell 6 or more, and
    its last cell is the tick when the event has a comment and the cross
    when it has none. *)
Theorem summary_row_widths (tick cross : string) (soup : Tag)
        (events : list Event) :
  _parse_changelog soup = Ok events ->
  forall ev,
    In ev events ->
    exists row,
      summary_row tick cross ev = Ok row
      /\ String.length (author_cell row) = 18%nat
      /\ String.length (fields_cell row) = 30%nat
      /\ (6 <= String.length (cnum_cell row))%nat
      /\ (comment ev <> "" -> comment_cell row = tick)
      /\ (comment ev = "" -> comment_cell row = cross).
Proof.
  intros Hp. apply parse_changelog_returned in Hp as [-> _].
  intros ev Hev. apply events_retained in Hev as [_ Hk].
  destruct (field_names_ok _ Hk) as (names & Hn).
  unfold summary_row. rewrite Hn. cbn [Py.bind]. eexists.
  split; [reflexivity|]. cbn [author_cell fields_cell cnum_cell comment_cell].
  rewrite !length_ljust.
  pose proof (length_take 18 (or_str (author ev) "?")).
  pose proof (length_take 30 (join ", " names)).
  repeat split; try lia.
  - destruct (comment ev); [congruence | reflexivity].
  - now intros ->.
Qed.

Lemma summary_row_widths_witness :
  exists row,
    summary_row "+" "-" (scenario_event None) = Ok row
    /\ String.length (author_cell row) = 18%nat
    /\ String.length (fields_cell row) = 30%nat
    /\ (6 <= String.length (cnum_cell row))%nat
    /\ (comment (scenario_event None) <> "" -> comment_cell row = "+")
    /\ (comment (scenario_event None) = "" -> comment_cell row = "-").
Proof.
  apply (summary_row_widths "+" "-" plain_scenario_page [scenario_event None]);
    [reflexivity | now left].
Defined.
